(** * Live Sports Auction API: a shallow embedding of [main.py]

    The endpoints of [main.py] are embedded as functions over an explicit
    document store.  Times are integers (microseconds since the epoch),
    prices and amounts are IEEE-754 doubles (Python [float]) as
    [spec_float], a MongoDB collection is the list of its documents in
    insertion order, and the wall clock is an explicit argument: one reading
    [now] where the endpoint calls [datetime.now] once, and a function from
    the loop index to a reading where it is called inside a loop.  Stored
    times are read back as points of the same time line as the clock's
    readings, so that the comparisons of the endpoints are defined; the
    store keeps them to the millisecond. *)

From Stdlib Require Import ZArith NArith List Bool Lia String Ascii.
From Stdlib Require Import SpecFloat Permutation Sorted.
Import ListNotations.

Local Open Scope Z_scope.
Local Open Scope string_scope.

(** ** Python floats and their comparisons *)

Definition float := spec_float.

(** [float(n)] for a Python int [n]: rounding to binary64. *)
Definition float_of_int (n : Z) : float := binary_normalize 53 1024 n 0 false.

Definition is_nan (x : float) : bool :=
  match x with S754_nan => true | _ => false end.

(** Python's [x <= y] and [x < y] on floats are the IEEE comparisons:
    both are [False] as soon as one operand is NaN. *)
Definition float_le (x y : float) : bool := SFleb x y.
Definition float_lt (x y : float) : bool := SFltb x y.

(** The order MongoDB sorts doubles by: NaN is below every number and equal
    to itself, numbers compare as usual. *)
Definition bson_le (x y : float) : bool :=
  is_nan x || (negb (is_nan y) && SFleb x y).
Definition bson_lt (x y : float) : bool := negb (bson_le y x).

(** ** Python values held in the price fields of a stored document *)

Inductive pyval : Type :=
| PyNone
| PyInt (n : Z)
| PyFloat (x : float).

(** A key of a document: [None] when the key is absent, [Some v] when it is
    present with value [v] (which may be [PyNone]). *)
Definition dict_get (field : option pyval) (default : pyval) : pyval :=
  match field with
  | Some v => v
  | None => default
  end.

(** ** Errors *)

Inductive error : Type :=
| HTTPException (status_code : Z) (detail : string)
| InvalidId          (* bson.errors.InvalidId, raised by [ObjectId(...)] *)
| TypeError          (* [float(None)]; a time without offset compared *)
| ValidationError.   (* pydantic, raised by the [Auction] schema *)

(** What the client sees: an exception that is not an [HTTPException] is
    answered by the framework with 500. *)
Definition http_status (e : error) : Z :=
  match e with
  | HTTPException c _ => c
  | InvalidId | TypeError | ValidationError => 500
  end.

Definition result (A : Type) : Type := (error + A)%type.

Definition ret {A} (a : A) : result A := inr a.
Definition raise {A} (e : error) : result A := inl e.
(** [float(v)] *)
Definition py_float (v : pyval) : result float :=
  match v with
  | PyNone => raise TypeError
  | PyInt n => ret (float_of_int n)
  | PyFloat x => ret x
  end.

(** ** Object ids

    An [ObjectId] is a 96-bit number; [ObjectId(s)] accepts the strings of
    24 hexadecimal digits (either case) and raises [InvalidId] on the
    others; [str] prints 24 lower-case digits.  (A string of 24 characters
    in which white space separates pairs of digits, which [bytes.fromhex]
    tolerates, counts as malformed here.) *)

Definition oid := N.

Definition hex_val (c : ascii) : option N :=
  let n := N_of_ascii c in
  if ((48 <=? n) && (n <=? 57))%N then Some (n - 48)%N
  else if ((97 <=? n) && (n <=? 102))%N then Some (n - 87)%N
  else if ((65 <=? n) && (n <=? 70))%N then Some (n - 55)%N
  else None.

Fixpoint parse_hex (s : string) (acc : N) : option N :=
  match s with
  | EmptyString => Some acc
  | String c s' =>
      match hex_val c with
      | Some d => parse_hex s' (16 * acc + d)%N
      | None => None
      end
  end.

Definition ObjectId (s : string) : result oid :=
  if Nat.eqb (String.length s) 24 then
    match parse_hex s 0%N with
    | Some n => ret n
    | None => raise InvalidId
    end
  else raise InvalidId.

Definition hex_digit (d : N) : ascii :=
  if (d <? 10)%N then ascii_of_N (48 + d) else ascii_of_N (87 + d).

Fixpoint hex_digits (k : nat) (n : N) (acc : string) : string :=
  match k with
  | O => acc
  | S k' => hex_digits k' (n / 16)%N (String (hex_digit (n mod 16)%N) acc)
  end.

Definition str_oid (n : oid) : string := hex_digits 24 n "".

(** ** Stored documents *)

Definition datetime := Z.

(** What the store keeps of a time: BSON dates count whole milliseconds, so
    a time is cut down to the millisecond when it is written. *)
Definition to_millis (t : datetime) : datetime := 1000 * (t / 1000).

(** A document of the [auction] collection: the fields of the [Auction]
    schema, [_id], and [updated_at], which [place_bid] sets. *)
Record AuctionDoc : Type := mkAuction {
  a_id : oid;
  item_id : option string;
  title : string;
  description : option string;
  image_url : option string;
  starting_price : option pyval;
  current_price : option pyval;
  start_time : datetime;
  end_time : datetime;
  status : string;
  tags : list string;
  updated_at : option datetime
}.

(** A document of the [bid] collection, as [place_bid] builds it. *)
Record BidDoc : Type := mkBid {
  b_id : oid;
  auction_id : string;
  bidder_name : string;
  amount : float;
  created_at : datetime
}.

(** The database: both collections in insertion order, and the next
    identifier the store hands out. *)
Record DB : Type := mkDB {
  auction : list AuctionDoc;
  bid : list BidDoc;
  next_oid : oid
}.

(** [db["auction"].find_one({"_id": i})] *)
Definition find_one (l : list AuctionDoc) (i : oid) : option AuctionDoc :=
  find (fun a => N.eqb (a_id a) i) l.

(** [update_one({"_id": i}, {"$set": ...})]: the first match is rewritten. *)
Fixpoint update_one (i : oid) (f : AuctionDoc -> AuctionDoc)
         (l : list AuctionDoc) : list AuctionDoc :=
  match l with
  | [] => []
  | a :: l' => if N.eqb (a_id a) i then f a :: l' else a :: update_one i f l'
  end.

(** The [$set] of [place_bid]. *)
Definition set_price (x : float) (now : datetime) (a : AuctionDoc) : AuctionDoc :=
  mkAuction (a_id a) (item_id a) (title a) (description a) (image_url a)
            (starting_price a) (Some (PyFloat x))
            (start_time a) (end_time a) (status a) (tags a)
            (Some (to_millis now)).

(** ** Requests and responses *)

Record PlaceBidRequest : Type := mkPlaceBid {
  req_bidder_name : string;
  req_amount : float
}.

Record BidResponse : Type := mkBidResponse {
  resp_id : string;
  resp_current_price : float
}.

(** ** Clock policy, as the endpoints write it *)

(** [start_time <= now <= end_time] *)
Definition in_window (now start_t end_t : datetime) : bool :=
  ((start_t <=? now) && (now <=? end_t))%Z.

(** The status computed by [create_auction] (lines 62-67). *)
Definition create_status (now start_t end_t : datetime) : string :=
  if in_window now start_t end_t then "live"
  else if (end_t <? now)%Z then "ended"
  else "scheduled".

(** ** place_bid *)

(** [float(auction.get("current_price", auction.get("starting_price", 0)))] *)
Definition read_price (a : AuctionDoc) : result float :=
  py_float (dict_get (current_price a) (dict_get (starting_price a) (PyInt 0))).

(** Lines 113-123: the auction is fetched and the bid is checked; nothing
    is written.  The result is the parsed id of the auction. *)
Definition check_bid (d : DB) (now : datetime) (aid : string)
           (payload : PlaceBidRequest) : result oid :=
  match ObjectId aid with
  | inl e => raise e
  | inr i =>
  match find_one (auction d) i with
  | None => raise (HTTPException 404 "Auction not found")
  | Some a =>
  if negb (in_window now (start_time a) (end_time a)) then
    raise (HTTPException 400 "Auction is not live")
  else
  match read_price a with
  | inl e => raise e
  | inr cur =>
  if float_le (req_amount payload) cur then
    raise (HTTPException 400 "Bid must be higher than current price")
  else ret i
  end
  end
  end.

(** Lines 126-132: [db["bid"].insert_one(bid_doc).inserted_id] *)
Definition insert_bid (d : DB) (now : datetime) (aid : string)
           (payload : PlaceBidRequest) : DB * oid :=
  let bid_doc := mkBid (next_oid d) aid (req_bidder_name payload)
                       (req_amount payload) (to_millis now) in
  (mkDB (auction d) (bid d ++ [bid_doc]) (N.succ (next_oid d)), next_oid d).

(** Line 135: the unconditional [$set] of the price and of [updated_at]. *)
Definition update_price (d : DB) (now : datetime) (i : oid)
           (payload : PlaceBidRequest) : DB :=
  mkDB (update_one i (set_price (req_amount payload) now) (auction d))
       (bid d) (next_oid d).

Definition place_bid (d : DB) (now : datetime) (aid : string)
           (payload : PlaceBidRequest) : DB * result BidResponse :=
  match check_bid d now aid payload with
  | inl e => (d, raise e)
  | inr i =>
      let (d1, inserted_id) := insert_bid d now aid payload in
      let d2 := update_price d1 now i payload in
      (d2, ret (mkBidResponse (str_oid inserted_id) (req_amount payload)))
  end.

(** *** The same request as three store operations

    [place_bid] talks to the store three times: [find_one], [insert_one],
    [update_one].  Requests served by different workers interleave between
    these calls; a request in flight is a [thread], which remembers what the
    request holds in its local variables. *)

Inductive thread : Type :=
| Start (now : datetime) (aid : string) (payload : PlaceBidRequest)
| Validated (now : datetime) (aid : string) (i : oid) (payload : PlaceBidRequest)
| Inserted (now : datetime) (i : oid) (inserted_id : oid) (payload : PlaceBidRequest)
| Done (r : result BidResponse).

Definition step (d : DB) (t : thread) : DB * thread :=
  match t with
  | Start now aid payload =>
      match check_bid d now aid payload with
      | inl e => (d, Done (raise e))
      | inr i => (d, Validated now aid i payload)
      end
  | Validated now aid i payload =>
      let (d1, inserted_id) := insert_bid d now aid payload in
      (d1, Inserted now i inserted_id payload)
  | Inserted now i inserted_id payload =>
      (update_price d now i payload,
       Done (ret (mkBidResponse (str_oid inserted_id) (req_amount payload))))
  | Done r => (d, Done r)
  end.

Fixpoint set_nth {A} (k : nat) (x : A) (l : list A) : list A :=
  match l, k with
  | [], _ => []
  | _ :: l', O => x :: l'
  | y :: l', S k' => y :: set_nth k' x l'
  end.

(** A schedule names, at each turn, the request that performs its next
    store operation. *)
Fixpoint run (sched : list nat) (d : DB) (ts : list thread) : DB * list thread :=
  match sched with
  | [] => (d, ts)
  | k :: sched' =>
      match nth_error ts k with
      | None => run sched' d ts
      | Some t => let (d', t') := step d t in run sched' d' (set_nth k t' ts)
      end
  end.

(** Bids handled one after another, each call finished before the next. *)
Fixpoint place_bids (d : DB) (aid : string)
         (reqs : list (datetime * PlaceBidRequest)) : DB * list (result BidResponse) :=
  match reqs with
  | [] => (d, [])
  | (now, payload) :: reqs' =>
      let (d1, r) := place_bid d now aid payload in
      let (d2, rs) := place_bids d1 aid reqs' in
      (d2, r :: rs)
  end.

Fixpoint accepted (rs : list (result BidResponse)) : list float :=
  match rs with
  | [] => []
  | inr r :: rs' => resp_current_price r :: accepted rs'
  | inl _ :: rs' => accepted rs'
  end.

(** ** create_auction *)

(** A [datetime] of a request body: an instant when the text carries an
    offset, a wall-clock reading with no offset otherwise.  Python refuses
    to compare the second kind with the clock's reading, which is an
    instant. *)
Inductive pydatetime : Type :=
| Aware (t : Z)
| Naive (t : Z).

Coercion Aware : Z >-> pydatetime.

Record CreateAuctionRequest : Type := mkCreateAuction {
  c_title : string;
  c_description : option string;
  c_image_url : option string;
  c_starting_price : float;
  c_start_time : pydatetime;
  c_end_time : pydatetime;
  c_tags : list string
}.

(** Modelled from the spec: [create_document] of [database.py], which is not
    among the sources.  "Inserts a new auction with caller-supplied fields;
    assigns identifier": the document is appended under the next identifier
    of the store, and the identifier is returned as a string. *)
Definition create_document (d : DB) (data : oid -> AuctionDoc) : DB * string :=
  (mkDB (auction d ++ [data (next_oid d)]) (bid d) (N.succ (next_oid d)),
   str_oid (next_oid d)).

Definition create_auction (d : DB) (now : datetime)
           (payload : CreateAuctionRequest) : DB * result string :=
  match c_start_time payload, c_end_time payload with
  | Aware start_t, Aware end_t =>
      let status := create_status now start_t end_t in
      (* the schema requires starting_price >= 0 and current_price >= 0 *)
      if float_le (float_of_int 0) (c_starting_price payload) then
        (* the window is stored, hence kept to the millisecond *)
        let data i :=
          mkAuction i None (c_title payload) (c_description payload)
                    (c_image_url payload)
                    (Some (PyFloat (c_starting_price payload)))
                    (Some (PyFloat (c_starting_price payload)))
                    (to_millis start_t) (to_millis end_t) status
                    (c_tags payload) None in
        let (d', inserted_id) := create_document d data in
        (d', ret inserted_id)
      else (d, raise ValidationError)
  | _, _ =>
      (* lines 64-66 compare both times with [now]: a time without offset
         makes the comparison raise *)
      (d, raise TypeError)
  end.

(** ** list_auctions *)

(** A query filter: field name and required string value. *)
Definition filter_dict := list (string * string).

Definition str_field (a : AuctionDoc) (k : string) : option string :=
  if String.eqb k "status" then Some (status a)
  else if String.eqb k "title" then Some (title a)
  else if String.eqb k "description" then description a
  else if String.eqb k "image_url" then image_url a
  else if String.eqb k "item_id" then item_id a
  else None.

Definition matches (f : filter_dict) (a : AuctionDoc) : bool :=
  forallb (fun kv => match str_field a (fst kv) with
                     | Some v => String.eqb v (snd kv)
                     | None => false
                     end) f.

(** Modelled from the spec: [get_documents] of [database.py], which is not
    among the sources.  "Returns up to [limit] records matching filter;
    empty filter = all", deterministically: the first [limit] matching
    documents of the collection. *)
Definition get_documents (l : list AuctionDoc) (f : filter_dict) (limit : Z)
  : list AuctionDoc :=
  firstn (Z.to_nat limit) (filter (matches f) l).

(** An element of the listing: the stored document (its [_id] is popped and
    returned as the string [id]) with the two computed flags. *)
Record AuctionItem : Type := mkItem {
  item_doc : AuctionDoc;
  item_id_str : string;
  is_live : bool;
  has_ended : bool
}.

(** The body of the [for] loop, lines 50-53, at the reading [now]. *)
Definition decorate (now : datetime) (a : AuctionDoc) : AuctionItem :=
  mkItem a (str_oid (a_id a))
         (in_window now (start_time a) (end_time a))
         (end_time a <? now)%Z.

(** The loop: [datetime.now] is called in every iteration; the [k]-th call
    of the request reads [clock k]. *)
Fixpoint decorate_all (clock : nat -> datetime) (k : nat) (l : list AuctionDoc)
  : list AuctionItem :=
  match l with
  | [] => []
  | a :: l' => decorate (clock k) a :: decorate_all clock (S k) l'
  end.

Definition list_auctions (d : DB) (clock : nat -> datetime)
           (status : option string) (limit : Z) : list AuctionItem :=
  (* [if status:] holds for a string that is neither [None] nor empty *)
  let filter_dict :=
    match status with
    | Some (String c s) => [("status", String c s)]
    | _ => []
    end in
  let auctions := get_documents (auction d) filter_dict limit in
  decorate_all clock 0 auctions.

(** ** get_auction *)

Record BidItem : Type := mkBidItem {
  bid_doc : BidDoc;
  bid_id_str : string
}.

Record AuctionDetail : Type := mkDetail {
  detail_doc : AuctionDoc;
  detail_id : string;
  top_bids : list BidItem
}.

(** [.sort("amount", -1)]: the cursor sorts on the single key [amount],
    descending.  The store promises nothing about documents with equal keys;
    here the sort itself keeps equal keys in the order it receives them, and
    the order in which the store feeds it the matching documents is the
    parameter [scan] of [get_auction]. *)
Fixpoint insert_desc (b : BidDoc) (l : list BidDoc) : list BidDoc :=
  match l with
  | [] => [b]
  | c :: l' =>
      if bson_lt (amount b) (amount c) then c :: insert_desc b l'
      else b :: c :: l'
  end.

Definition sort_amount_desc (l : list BidDoc) : list BidDoc :=
  fold_right insert_desc [] l.

Definition get_auction (scan : list BidDoc -> list BidDoc) (d : DB)
           (aid : string) : result AuctionDetail :=
  match ObjectId aid with
  | inl _ => raise (HTTPException 400 "Invalid auction id")
  | inr i =>
  match find_one (auction d) i with
  | None => raise (HTTPException 404 "Auction not found")
  | Some doc =>
      let found := filter (fun b => String.eqb (auction_id b) aid) (bid d) in
      let bids := firstn 10 (sort_amount_desc (scan found)) in
      ret (mkDetail doc (str_oid (a_id doc))
                    (map (fun b => mkBidItem b (str_oid (b_id b))) bids))
  end
  end.

(** ** test_database *)

(** A Python [str] where its characters matter: the list of its code
    points.  [lit] reads a literal written in ASCII. *)
Definition pystr := list N.

Definition lit (s : string) : pystr := map N_of_ascii (list_ascii_of_string s).

Definition check_mark : pystr := [0x2705%N].
Definition cross_mark : pystr := [0x274C%N].
Definition warning_sign : pystr := [0x26A0%N; 0xFE0F%N].

(** What [test_database] asks of the imported [db]: its [name], when it has
    one, and [list_collection_names()], which returns the names or raises
    an exception, kept here as the text [str(e)]. *)
Record Database : Type := mkDatabase {
  db_name : option pystr;
  list_collection_names : (pystr + list pystr)%type
}.

Record TestResponse : Type := mkTestResponse {
  backend : pystr;
  database : pystr;
  database_url : option pystr;
  database_name : option pystr;
  connection_status : pystr;
  collections : list pystr
}.

(** [response[key] = value] *)
Definition set_database (v : pystr) (r : TestResponse) : TestResponse :=
  mkTestResponse (backend r) v (database_url r) (database_name r)
                 (connection_status r) (collections r).
Definition set_database_url (v : pystr) (r : TestResponse) : TestResponse :=
  mkTestResponse (backend r) (database r) (Some v) (database_name r)
                 (connection_status r) (collections r).
Definition set_database_name (v : pystr) (r : TestResponse) : TestResponse :=
  mkTestResponse (backend r) (database r) (database_url r) (Some v)
                 (connection_status r) (collections r).
Definition set_connection_status (v : pystr) (r : TestResponse) : TestResponse :=
  mkTestResponse (backend r) (database r) (database_url r) (database_name r)
                 v (collections r).
Definition set_collections (v : list pystr) (r : TestResponse) : TestResponse :=
  mkTestResponse (backend r) (database r) (database_url r) (database_name r)
                 (connection_status r) v.

(** [if os.getenv(k)]: the variable is set, and not to the empty string. *)
Definition getenv_truthy (env : string -> option pystr) (k : string) : bool :=
  match env k with
  | Some (_ :: _) => true
  | _ => false
  end.

(** Lines 152-185.  None of the operations inside the outer [try] raises
    here, so its [except] branch is never taken. *)
Definition test_database (db : option Database) (env : string -> option pystr)
  : TestResponse :=
  let response :=
    mkTestResponse (check_mark ++ lit " Running")%list
                   (cross_mark ++ lit " Not Available")%list
                   None None (lit "Not Connected") [] in
  let response :=
    match db with
    | Some db =>
        let response := set_database (check_mark ++ lit " Available")%list response in
        let response := set_database_url (check_mark ++ lit " Configured")%list response in
        let response :=
          set_database_name
            match db_name db with
            | Some n => n
            | None => (check_mark ++ lit " Connected")%list
            end response in
        let response := set_connection_status (lit "Connected") response in
        match list_collection_names db with
        | inr names =>
            let response := set_collections (firstn 10 names) response in
            set_database (check_mark ++ lit " Connected & Working")%list response
        | inl e =>
            set_database (warning_sign ++ lit "  Connected but Error: "
                                       ++ firstn 50 e)%list response
        end
    | None =>
        set_database (warning_sign ++ lit "  Available but not initialized")%list
                     response
    end in
  let response :=
    set_database_url (if getenv_truthy env "DATABASE_URL"
                      then (check_mark ++ lit " Set")%list
                      else (cross_mark ++ lit " Not Set")%list) response in
  let response :=
    set_database_name (if getenv_truthy env "DATABASE_NAME"
                       then (check_mark ++ lit " Set")%list
                       else (cross_mark ++ lit " Not Set")%list) response in
  response.

(** ** Vocabulary of the statements *)

(** The price a bid competes with: the stored [current_price], or the
    [starting_price] when the document has no [current_price]. *)
Definition price_is (a : AuctionDoc) (cur : float) : Prop :=
  current_price a = Some (PyFloat cur) \/
  (current_price a = None /\ starting_price a = Some (PyFloat cur)).

(** The database after [place_bid] has accepted [payload] for the auction
    [i]: the bid appended, the price and [updated_at] set. *)
Definition accepting (d : DB) (now : datetime) (aid : string) (i : oid)
           (payload : PlaceBidRequest) : DB :=
  mkDB (update_one i (set_price (req_amount payload) now) (auction d))
       (bid d ++ [mkBid (next_oid d) aid (req_bidder_name payload)
                        (req_amount payload) (to_millis now)])
       (N.succ (next_oid d)).

(** The answer of a request that has finished. *)
Definition thread_result (t : thread) : option (result BidResponse) :=
  match t with
  | Done r => Some r
  | _ => None
  end.

(** The accepted amounts of bids handled in turn rise strictly from the
    price found at the start. *)
Fixpoint increasing_from (x : float) (l : list float) : Prop :=
  match l with
  | [] => True
  | y :: l' => float_lt x y = true /\ increasing_from y l'
  end.

(** [b] may stand before [c] in a listing by amount, descending. *)
Definition amount_ge (b c : BidDoc) : Prop :=
  bson_le (amount c) (amount b) = true.

(** The identifiers of the stored auctions are pairwise distinct and fit
    in 96 bits. *)
Definition store_ok (d : DB) : Prop :=
  NoDup (map a_id (auction d)) /\
  Forall (fun a => (a_id a < 2 ^ 96)%N) (auction d).

(** The identifier the store hands out next fits in 96 bits and is borne
    by no stored auction. *)
Definition fresh (d : DB) : Prop :=
  (next_oid d < 2 ^ 96)%N /\
  Forall (fun a => a_id a <> next_oid d) (auction d).

(** [b] is [a] up to the two fields that [place_bid] sets. *)
Definition same_frame (a b : AuctionDoc) : Prop :=
  a_id b = a_id a /\ item_id b = item_id a /\ title b = title a /\
  description b = description a /\ image_url b = image_url a /\
  starting_price b = starting_price a /\
  start_time b = start_time a /\ end_time b = end_time a /\
  status b = status a /\ tags b = tags a.

Definition zero : float := float_of_int 0.

(** The price of the auction reads as a number that is not negative. *)
Definition price_nonneg (a : AuctionDoc) : Prop :=
  exists cur, read_price a = inr cur /\ float_le zero cur = true.

(** Every price is non-negative and every stored bid is positive. *)
Definition amounts_ok (d : DB) : Prop :=
  Forall price_nonneg (auction d) /\
  Forall (fun b => float_lt zero (amount b) = true) (bid d).

(** A request in flight carries an amount that is a number, and a positive
    one once it has passed the checks. *)
Definition thread_ok (t : thread) : Prop :=
  match t with
  | Start _ _ payload => is_nan (req_amount payload) = false
  | Validated _ _ _ payload => float_lt zero (req_amount payload) = true
  | Inserted _ _ _ payload => float_lt zero (req_amount payload) = true
  | Done _ => True
  end.

(** The request as it arrives. *)
Definition submit (r : datetime * string * PlaceBidRequest) : thread :=
  Start (fst (fst r)) (snd (fst r)) (snd r).

(** [d'] is [d] after bids were placed: the same auctions in the same
    order, each up to its price and [updated_at]; the bids of [d] followed
    by new ones; identifiers only consumed. *)
Definition extends (d d' : DB) : Prop :=
  Forall2 same_frame (auction d) (auction d') /\
  (exists new, bid d' = (bid d ++ new)%list) /\
  (next_oid d <= next_oid d')%N.

(** What the store holds for a request in flight: once the bid is inserted,
    and still when the request has answered with success, a bid document
    with the identifier and the amount that the answer carries. *)
Definition recorded (d : DB) (t : thread) : Prop :=
  match t with
  | Inserted _ _ inserted_id payload =>
      exists b, In b (bid d) /\ b_id b = inserted_id /\
                amount b = req_amount payload /\
                bidder_name b = req_bidder_name payload
  | Done (inr r) =>
      exists b, In b (bid d) /\ str_oid (b_id b) = resp_id r /\
                amount b = resp_current_price r
  | _ => True
  end.

(** ** Sample data *)

Definition f50 : float := float_of_int 50.
Definition f100 : float := float_of_int 100.
Definition f120 : float := float_of_int 120.
Definition f150 : float := float_of_int 150.
Definition f200 : float := float_of_int 200.
Definition nan : float := S754_nan.

Definition id1 : string := "65a000000000000000000001".
Definition oid1 : oid := 0x65a000000000000000000001%N.

(** An auction open from 1000 to 2000 at price 100. *)
Definition auction1 : AuctionDoc :=
  mkAuction oid1 None "Signed Jersey" None None
            (Some (PyFloat f100)) (Some (PyFloat f100))
            1000 2000 "live" [] None.

Definition db1 : DB := mkDB [auction1] [] (N.succ oid1).

(** A second auction with the same window. *)
Definition oid2 : oid := 0x65a000000000000000000002%N.

Definition auction2 : AuctionDoc :=
  mkAuction oid2 None "Match Ball" None None
            (Some (PyFloat f50)) (Some (PyFloat f50))
            1000 2000 "live" [] None.

Definition db2 : DB := mkDB [auction1; auction2] [] (N.succ oid2).

(** A clock that advances by 1000 between two readings. *)
Definition clock2 (k : nat) : datetime := 1500 + 1000 * Z.of_nat k.

(** The request that creates [auction1], and an empty store. *)
Definition req1 : CreateAuctionRequest :=
  mkCreateAuction "Signed Jersey" None None f100 1000 2000 [].

Definition db0 : DB := mkDB [] [] oid1.

(** Two requests served by two workers, and the schedule in which both read
    the auction before either writes. *)
Definition race : list nat := [0; 1; 0; 0; 1; 1]%nat.

Definition two_bids : list thread :=
  [Start 1500 id1 (mkPlaceBid "A" f150); Start 1500 id1 (mkPlaceBid "B" f120)].

Definition equal_bids : list thread :=
  [Start 1500 id1 (mkPlaceBid "early" f150);
   Start 1500 id1 (mkPlaceBid "late" f150)].

(** The store after two equal bids raced. *)
Definition db_tie : DB := fst (run race db1 equal_bids).


(** The detail of the auction after the two equal bids, from a store that
    yields equal keys in reverse order. *)
Definition detail_tie : AuctionDetail :=
  let a := set_price f150 1500 auction1 in
  let early := mkBid 0x65a000000000000000000002%N id1 "early" f150 1000 in
  let late := mkBid 0x65a000000000000000000003%N id1 "late" f150 1000 in
  mkDetail a id1 [mkBidItem late "65a000000000000000000003";
                  mkBidItem early "65a000000000000000000002"].

(** [id1] spelt with upper-case digits. *)
Definition id1_upper : string := "65A000000000000000000001".

(** An auction whose window ends before it starts. *)
Definition auction_inverted : AuctionDoc :=
  mkAuction oid1 None "Signed Jersey" None None
            (Some (PyFloat f100)) (Some (PyFloat f100))
            2000 1000 "ended" [] None.

(** [auction1] with a null [current_price], and with no price key at all. *)
Definition auction_null_price : AuctionDoc :=
  mkAuction oid1 None "Signed Jersey" None None
            (Some (PyFloat f100)) (Some PyNone)
            1000 2000 "live" [] None.

Definition auction_no_price : AuctionDoc :=
  mkAuction oid1 None "Signed Jersey" None None None None
            1000 2000 "live" [] None.

(** * Properties *)

Example f100_bits : f100 = S754_finite false 7036874417766400 (-46).
Proof. reflexivity. Qed.

Example ObjectId_id1 : ObjectId id1 = inr oid1.
Proof. reflexivity. Qed.

Example str_oid_id1 : str_oid oid1 = id1.
Proof. reflexivity. Qed.

Example ObjectId_upper_case :
  ObjectId "65A000000000000000000001" = inr oid1.
Proof. reflexivity. Qed.

(** The scenario of the specification: 150 is accepted over 100, then 120 is
    refused, then 200 is accepted. *)
Example scenario :
  let r1 := place_bid db1 1500 id1 (mkPlaceBid "A" f150) in
  let r2 := place_bid (fst r1) 1500 id1 (mkPlaceBid "B" f120) in
  let r3 := place_bid (fst r2) 1500 id1 (mkPlaceBid "C" f200) in
  snd r1 = inr (mkBidResponse "65a000000000000000000002" f150) /\
  snd r2 = inl (HTTPException 400 "Bid must be higher than current price") /\
  snd r3 = inr (mkBidResponse "65a000000000000000000003" f200).
Proof. vm_compute. repeat split. Qed.

(** ** The order on doubles *)

Ltac cmp_cases :=
  repeat match goal with
  | |- context [Z.compare ?a ?b] => destruct (Z.compare_spec a b)
  | |- context [Pos.compare_cont Eq ?a ?b] =>
      change (Pos.compare_cont Eq a b) with (Pos.compare a b);
      destruct (Pos.compare_spec a b)
  end.

Ltac float_order :=
  repeat match goal with b : bool |- _ => destruct b end;
  cbn; try easy; cmp_cases; cbn; try easy; subst; try lia.

Lemma SFcompare_antisym (x y : float) :
  SFcompare y x = option_map CompOpp (SFcompare x y).
Proof.
  destruct x as [sx|sx| |sx mx ex], y as [sy|sy| |sy my ey]; float_order.
Qed.

Lemma float_lt_not_le (x y : float) :
  float_lt x y = true -> float_le y x = false.
Proof.
  unfold float_lt, float_le, SFltb, SFleb. rewrite (SFcompare_antisym x y).
  destruct (SFcompare x y) as [[]|]; cbn; congruence.
Qed.

Lemma SFcompare_some (x y : float) :
  is_nan x = false -> is_nan y = false -> exists c, SFcompare x y = Some c.
Proof.
  destruct x as [sx|sx| |sx mx ex], y as [sy|sy| |sy my ey]; cbn;
    intros; try discriminate; eexists; reflexivity.
Qed.

Lemma float_not_le_lt (x y : float) :
  is_nan x = false -> is_nan y = false ->
  float_le y x = false -> float_lt x y = true.
Proof.
  intros Hx Hy. destruct (SFcompare_some x y Hx Hy) as [c Hc].
  unfold float_lt, float_le, SFltb, SFleb.
  rewrite (SFcompare_antisym x y), Hc. destruct c; cbn; congruence.
Qed.

Lemma float_lt_le (x y : float) : float_lt x y = true -> float_le x y = true.
Proof.
  unfold float_lt, float_le, SFltb, SFleb.
  destruct (SFcompare x y) as [[]|]; congruence.
Qed.

Lemma float_le_refl (x : float) : is_nan x = false -> float_le x x = true.
Proof.
  unfold float_le, SFleb. destruct x as [sx|sx| |sx mx ex]; float_order.
Qed.

Lemma float_le_trans (x y z : float) :
  float_le x y = true -> float_le y z = true -> float_le x z = true.
Proof.
  unfold float_le, SFleb.
  destruct x as [sx|sx| |sx mx ex], y as [sy|sy| |sy my ey],
           z as [sz|sz| |sz mz ez]; float_order.
Qed.

Lemma float_lt_trans (x y z : float) :
  float_lt x y = true -> float_lt y z = true -> float_lt x z = true.
Proof.
  unfold float_lt, SFltb.
  destruct x as [sx|sx| |sx mx ex], y as [sy|sy| |sy my ey],
           z as [sz|sz| |sz mz ez]; float_order.
Qed.

Lemma float_lt_not_nan (x y : float) :
  float_lt x y = true -> is_nan x = false /\ is_nan y = false.
Proof.
  unfold float_lt, SFltb. destruct x, y; cbn; try easy.
Qed.

Lemma nan_not_le (y : float) : float_le nan y = false.
Proof. reflexivity. Qed.

Lemma not_le_nan (x : float) : float_le x nan = false.
Proof. destruct x; reflexivity. Qed.

Lemma bson_le_total (x y : float) : bson_le x y = false -> bson_le y x = true.
Proof.
  unfold bson_le, SFleb.
  destruct (is_nan x) eqn:Hx, (is_nan y) eqn:Hy; cbn; try congruence.
  destruct (SFcompare_some x y Hx Hy) as [c Hc].
  rewrite (SFcompare_antisym x y), Hc. destruct c; cbn; congruence.
Qed.

Lemma bson_le_trans (x y z : float) :
  bson_le x y = true -> bson_le y z = true -> bson_le x z = true.
Proof.
  unfold bson_le, SFleb.
  destruct x as [sx|sx| |sx mx ex], y as [sy|sy| |sy my ey],
           z as [sz|sz| |sz mz ez]; float_order.
Qed.

(** ** The store *)

Lemma find_one_In (l : list AuctionDoc) (i : oid) (a : AuctionDoc) :
  find_one l i = Some a -> In a l /\ a_id a = i.
Proof.
  unfold find_one. intros H. apply find_some in H. destruct H as [H1 H2].
  split; [assumption | now apply N.eqb_eq].
Qed.

Lemma find_one_update_one (l : list AuctionDoc) (i : oid)
      (f : AuctionDoc -> AuctionDoc) (a : AuctionDoc) :
  (forall b, a_id (f b) = a_id b) ->
  find_one l i = Some a ->
  find_one (update_one i f l) i = Some (f a).
Proof.
  intros Hf. unfold find_one. induction l as [|b l IH]; cbn; [discriminate|].
  destruct (N.eqb (a_id b) i) eqn:E; cbn.
  - rewrite Hf, E. congruence.
  - rewrite E. exact IH.
Qed.

Lemma find_one_update_other (l : list AuctionDoc) (i j : oid)
      (f : AuctionDoc -> AuctionDoc) :
  (forall b, a_id (f b) = a_id b) -> j <> i ->
  find_one (update_one i f l) j = find_one l j.
Proof.
  intros Hf Hji. unfold find_one. induction l as [|b l IH]; cbn; [reflexivity|].
  destruct (N.eqb (a_id b) i) eqn:E; cbn.
  - rewrite Hf. apply N.eqb_eq in E.
    destruct (N.eqb (a_id b) j) eqn:E'; [|reflexivity].
    apply N.eqb_eq in E'. congruence.
  - now rewrite IH.
Qed.

Lemma set_price_id (x : float) (now : datetime) (b : AuctionDoc) :
  a_id (set_price x now b) = a_id b.
Proof. reflexivity. Qed.

(** ** Reading the price *)

Lemma read_price_is (a : AuctionDoc) (cur : float) :
  price_is a cur -> read_price a = inr cur.
Proof.
  unfold read_price. intros [H | [H1 H2]].
  - now rewrite H.
  - now rewrite H1, H2.
Qed.

Lemma price_is_set_price (x : float) (now : datetime) (a : AuctionDoc) :
  price_is (set_price x now a) x.
Proof. left. reflexivity. Qed.

(** ** place_bid, case by case *)

Lemma place_bid_found (d : DB) (now : datetime) (aid : string)
      (payload : PlaceBidRequest) (i : oid) (a : AuctionDoc) (cur : float) :
  ObjectId aid = inr i ->
  find_one (auction d) i = Some a ->
  read_price a = inr cur ->
  place_bid d now aid payload =
    if negb (in_window now (start_time a) (end_time a)) then
      (d, inl (HTTPException 400 "Auction is not live"))
    else if float_le (req_amount payload) cur then
      (d, inl (HTTPException 400 "Bid must be higher than current price"))
    else
      (accepting d now aid i payload,
       inr (mkBidResponse (str_oid (next_oid d)) (req_amount payload))).
Proof.
  intros Hid Hfind Hread. unfold place_bid, check_bid.
  rewrite Hid, Hfind, Hread.
  destruct (negb _); [reflexivity|].
  destruct (float_le _ _); reflexivity.
Qed.

Lemma check_bid_ok (d : DB) (now : datetime) (aid : string)
      (payload : PlaceBidRequest) (i : oid) :
  check_bid d now aid payload = inr i ->
  exists a cur,
    ObjectId aid = inr i /\ find_one (auction d) i = Some a /\
    in_window now (start_time a) (end_time a) = true /\
    read_price a = inr cur /\
    float_le (req_amount payload) cur = false.
Proof.
  unfold check_bid.
  destruct (ObjectId aid) as [e0|j] eqn:Hid; [discriminate|].
  destruct (find_one (auction d) j) as [a|] eqn:Hf; [|discriminate].
  destruct (in_window _ _ _) eqn:Hw; cbn [negb]; [|discriminate].
  destruct (read_price a) as [e1|cur] eqn:Hr; [discriminate|].
  destruct (float_le _ _) eqn:Hle; [discriminate|].
  intros [= <-]. exists a, cur. repeat split; assumption.
Qed.

Lemma place_bid_error_unchanged (d d' : DB) (now : datetime) (aid : string)
      (payload : PlaceBidRequest) (e : error) :
  place_bid d now aid payload = (d', inl e) -> d' = d.
Proof.
  unfold place_bid.
  destruct (check_bid d now aid payload) as [e0|i]; cbn.
  - intros [= <- _]. reflexivity.
  - discriminate.
Qed.

Lemma place_bid_accept_inv (d d' : DB) (now : datetime) (aid : string)
      (payload : PlaceBidRequest) (r : BidResponse) :
  place_bid d now aid payload = (d', inr r) ->
  exists i a cur,
    ObjectId aid = inr i /\ find_one (auction d) i = Some a /\
    in_window now (start_time a) (end_time a) = true /\
    read_price a = inr cur /\
    float_le (req_amount payload) cur = false /\
    d' = accepting d now aid i payload /\
    r = mkBidResponse (str_oid (next_oid d)) (req_amount payload).
Proof.
  unfold place_bid.
  destruct (check_bid d now aid payload) as [e0|i] eqn:Hc; cbn; [discriminate|].
  intros [= <- <-].
  destruct (check_bid_ok _ _ _ _ _ Hc) as (a & cur & H1 & H2 & H3 & H4 & H5).
  exists i, a, cur. repeat split; assumption.
Qed.

(** An accepted bid between two numbers is strictly higher. *)
Lemma place_bid_accept_strict (d d' : DB) (now : datetime) (aid : string)
      (payload : PlaceBidRequest) (r : BidResponse) :
  is_nan (req_amount payload) = false ->
  place_bid d now aid payload = (d', inr r) ->
  exists i a cur,
    ObjectId aid = inr i /\ find_one (auction d) i = Some a /\
    read_price a = inr cur /\
    (is_nan cur = false -> float_lt cur (req_amount payload) = true).
Proof.
  intros Hnan H. apply place_bid_accept_inv in H.
  destruct H as (i & a & cur & Hid & Hf & _ & Hr & Hle & _).
  exists i, a, cur. repeat split; try assumption.
  intros Hc. now apply float_not_le_lt.
Qed.

(** The three store operations of a request, run back to back, are
    [place_bid]. *)
Lemma place_bid_steps (d : DB) (now : datetime) (aid : string)
      (payload : PlaceBidRequest) :
  let (d1, t1) := step d (Start now aid payload) in
  let (d2, t2) := step d1 t1 in
  let (d3, t3) := step d2 t2 in
  d3 = fst (place_bid d now aid payload) /\
  thread_result t3 = Some (snd (place_bid d now aid payload)).
Proof.
  unfold place_bid. cbn [step].
  destruct (check_bid d now aid payload) as [e|i]; cbn; auto.
Qed.

(** ** Accepting a bid *)

(** X17: a bid on an existing auction, placed inside the auction's window,
    whose amount is strictly greater than the price it competes with (the
    stored [current_price] when it is a number, the [starting_price] when
    the document has no [current_price] key) is accepted: one bid document
    is appended, the auction's [current_price] becomes exactly the amount
    and [updated_at] becomes [now] cut to the millisecond, every other
    auction is left as it was, and the answer carries the new bid's id and
    the amount as the new current price. *)
Theorem place_bid_accepts (d : DB) (now : datetime) (aid : string)
        (payload : PlaceBidRequest) (i : oid) (a : AuctionDoc) (cur : float) :
  ObjectId aid = inr i ->
  find_one (auction d) i = Some a ->
  in_window now (start_time a) (end_time a) = true ->
  price_is a cur ->
  float_lt cur (req_amount payload) = true ->
  let d' := fst (place_bid d now aid payload) in
  snd (place_bid d now aid payload) =
    inr (mkBidResponse (str_oid (next_oid d)) (req_amount payload)) /\
  bid d' = (bid d ++ [mkBid (next_oid d) aid (req_bidder_name payload)
                            (req_amount payload) (to_millis now)])%list /\
  (exists a', find_one (auction d') i = Some a' /\
              current_price a' = Some (PyFloat (req_amount payload)) /\
              updated_at a' = Some (to_millis now) /\
              a' = set_price (req_amount payload) now a) /\
  (forall j, j <> i -> find_one (auction d') j = find_one (auction d) j).
Proof.
  intros Hid Hfind Hwin Hprice Hlt.
  rewrite (place_bid_found d now aid payload i a cur Hid Hfind
             (read_price_is a cur Hprice)).
  rewrite Hwin, (float_lt_not_le _ _ Hlt). cbn.
  repeat split.
  - exists (set_price (req_amount payload) now a). repeat split.
    apply find_one_update_one; [apply set_price_id | assumption].
  - intros j Hj. apply find_one_update_other; [apply set_price_id | assumption].
Qed.

Lemma place_bid_accepts_witness :
  snd (place_bid db1 1500 id1 (mkPlaceBid "A" f150)) =
    inr (mkBidResponse "65a000000000000000000002" f150) /\
  exists a', find_one (auction (fst (place_bid db1 1500 id1 (mkPlaceBid "A" f150))))
                      oid1 = Some a' /\
             current_price a' = Some (PyFloat f150).
Proof.
  destruct (place_bid_accepts db1 1500 id1 (mkPlaceBid "A" f150) oid1 auction1 f100)
    as (Hr & _ & (a' & Ha & Hp & _) & _).
  - reflexivity.
  - reflexivity.
  - reflexivity.
  - left; reflexivity.
  - reflexivity.
  - split; [exact Hr | exists a'; split; [exact Ha | exact Hp]].
Defined.

(** C1, at the failing input: the stored auction is live, its
    [current_price] is null and its [starting_price] is 100; a bid of 150,
    strictly above the starting price, is not accepted: the null is not
    replaced by the starting price, [float(None)] raises [TypeError], the
    client gets 500 and neither the bid nor the price is stored. *)
Theorem null_current_price_is_not_defaulted :
  let d := mkDB [auction_null_price] [] (N.succ oid1) in
  find_one (auction d) oid1 = Some auction_null_price /\
  current_price auction_null_price = Some PyNone /\
  starting_price auction_null_price = Some (PyFloat f100) /\
  in_window 1500 (start_time auction_null_price)
            (end_time auction_null_price) = true /\
  float_lt f100 f150 = true /\
  place_bid d 1500 id1 (mkPlaceBid "A" f150) = (d, inl TypeError) /\
  http_status TypeError = 500.
Proof. vm_compute. repeat split. Qed.

(** ** Refusing a bid *)

(** X18: on a live auction, a bid whose amount is less than or equal to
    the price it competes with, an amount equal to it included, is refused
    with the 400 error "Bid must be higher than current price" and nothing
    is stored; a bid that [place_bid] accepts is never less than or equal to
    the price it read. *)
Theorem place_bid_rejects_low (d : DB) (now : datetime) (aid : string)
        (payload : PlaceBidRequest) (i : oid) (a : AuctionDoc) (cur : float) :
  ObjectId aid = inr i ->
  find_one (auction d) i = Some a ->
  in_window now (start_time a) (end_time a) = true ->
  price_is a cur ->
  (float_le (req_amount payload) cur = true ->
   place_bid d now aid payload =
     (d, inl (HTTPException 400 "Bid must be higher than current price"))) /\
  (req_amount payload = cur -> is_nan cur = false ->
   place_bid d now aid payload =
     (d, inl (HTTPException 400 "Bid must be higher than current price"))) /\
  (forall d' r, place_bid d now aid payload = (d', inr r) ->
                float_le (req_amount payload) cur = false).
Proof.
  intros Hid Hfind Hwin Hprice.
  pose proof (place_bid_found d now aid payload i a cur Hid Hfind
                (read_price_is a cur Hprice)) as E.
  rewrite Hwin in E. cbn [negb] in E. repeat split.
  - intros Hle. now rewrite Hle in E.
  - intros Heq Hnan. rewrite E, Heq, (float_le_refl cur Hnan). reflexivity.
  - intros d' r H. rewrite H in E.
    destruct (float_le _ _); [discriminate | reflexivity].
Qed.

Lemma place_bid_rejects_low_witness :
  place_bid db1 1500 id1 (mkPlaceBid "B" f100) =
    (db1, inl (HTTPException 400 "Bid must be higher than current price")).
Proof.
  destruct (place_bid_rejects_low db1 1500 id1 (mkPlaceBid "B" f100)
              oid1 auction1 f100) as (_ & Heq & _).
  - reflexivity.
  - reflexivity.
  - reflexivity.
  - left; reflexivity.
  - apply Heq; reflexivity.
Defined.

(** C4, at the failing input: on the live auction priced 100 a bid whose
    amount is NaN is neither less than or equal to the price nor strictly
    greater than it; the guard [amount <= current_price] is false, so the
    bid is accepted and stored, and NaN becomes the price: an acceptance
    without [amount > current_price]. *)
Theorem nan_bid_is_accepted_without_exceeding :
  read_price auction1 = inr f100 /\
  float_le nan f100 = false /\
  float_lt f100 nan = false /\
  snd (place_bid db1 1500 id1 (mkPlaceBid "A" nan)) =
    inr (mkBidResponse "65a000000000000000000002" nan) /\
  map amount (bid (fst (place_bid db1 1500 id1 (mkPlaceBid "A" nan)))) = [nan] /\
  option_map read_price
    (find_one (auction (fst (place_bid db1 1500 id1 (mkPlaceBid "A" nan)))) oid1) =
    Some (inr nan).
Proof. vm_compute. repeat split. Qed.

(** C5, at the failing input: an id that is not 24 hexadecimal digits makes
    [ObjectId] raise [InvalidId]; [place_bid] calls it outside any [try], so
    the exception escapes and the client gets 500, not 404, while
    [get_auction] wraps the same call and answers 400.  Nothing is
    stored. *)
Lemma place_bid_malformed_id_not_404 :
  place_bid db1 1500 "not-an-object-id" (mkPlaceBid "A" f150) = (db1, inl InvalidId) /\
  http_status InvalidId = 500 /\
  http_status InvalidId <> 404 /\
  get_auction (fun l => l) db1 "not-an-object-id" =
    inl (HTTPException 400 "Invalid auction id").
Proof. repeat split. discriminate. Qed.

(** When the id is malformed or names no stored auction, [place_bid] fails
    whatever the amount, records no bid and modifies no auction; when the id
    is well formed and names no stored auction the failure is the 404 error
    "Auction not found". *)
Theorem place_bid_unknown_id (d : DB) (now : datetime) (aid : string)
        (payload : PlaceBidRequest) :
  (forall i, ObjectId aid = inr i -> find_one (auction d) i = None) ->
  fst (place_bid d now aid payload) = d /\
  (exists e, snd (place_bid d now aid payload) = inl e) /\
  (forall i, ObjectId aid = inr i ->
             snd (place_bid d now aid payload) =
               inl (HTTPException 404 "Auction not found")).
Proof.
  intros H. unfold place_bid, check_bid.
  destruct (ObjectId aid) as [e|i] eqn:Hid.
  - split; [reflexivity|]. split; [eexists; reflexivity | discriminate].
  - rewrite (H i eq_refl).
    split; [reflexivity|]. split; [eexists; reflexivity | reflexivity].
Qed.

Lemma place_bid_unknown_id_witness :
  place_bid db1 1500 "65a0000000000000000000ff" (mkPlaceBid "A" f150) =
    (db1, inl (HTTPException 404 "Auction not found")).
Proof.
  destruct (place_bid_unknown_id db1 1500 "65a0000000000000000000ff"
              (mkPlaceBid "A" f150)) as (Hd & _ & H404).
  - intros i Hi. vm_compute in Hi. injection Hi as <-. reflexivity.
  - rewrite (surjective_pairing (place_bid _ _ _ _)), Hd.
    rewrite (H404 0x65a0000000000000000000ff%N eq_refl). reflexivity.
Defined.

(** C10: whenever [place_bid] answers with an error, the database it leaves
    is the database it was given: no bid document is inserted, no auction
    is modified, no identifier is consumed. *)
Theorem place_bid_rejection_keeps_state (d : DB) (now : datetime)
        (aid : string) (payload : PlaceBidRequest) (e : error) :
  snd (place_bid d now aid payload) = inl e ->
  fst (place_bid d now aid payload) = d /\
  bid (fst (place_bid d now aid payload)) = bid d /\
  auction (fst (place_bid d now aid payload)) = auction d.
Proof.
  intros H.
  assert (E : fst (place_bid d now aid payload) = d).
  { apply (place_bid_error_unchanged d _ now aid payload e).
    rewrite <- H. apply surjective_pairing. }
  rewrite E. repeat split.
Qed.

Lemma place_bid_rejection_keeps_state_witness :
  snd (place_bid db1 2500 id1 (mkPlaceBid "A" f150)) =
    inl (HTTPException 400 "Auction is not live") /\
  fst (place_bid db1 2500 id1 (mkPlaceBid "A" f150)) = db1.
Proof.
  split; [reflexivity|].
  apply (place_bid_rejection_keeps_state db1 2500 id1 (mkPlaceBid "A" f150)
           (HTTPException 400 "Auction is not live")).
  reflexivity.
Defined.

(** ** Clock policy *)

Lemma in_window_spec (now s e : datetime) :
  in_window now s e = true <-> s <= now <= e.
Proof. unfold in_window. rewrite andb_true_iff, !Z.leb_le. tauto. Qed.

Lemma create_status_cases (now s e : datetime) :
  (s <= now <= e /\ create_status now s e = "live") \/
  (~ s <= now <= e /\ e < now /\ create_status now s e = "ended") \/
  (~ s <= now <= e /\ now <= e /\ create_status now s e = "scheduled").
Proof.
  unfold create_status.
  destruct (in_window now s e) eqn:W.
  - left. split; [now apply in_window_spec | reflexivity].
  - assert (~ s <= now <= e) by (rewrite <- in_window_spec; congruence).
    destruct (Z.ltb_spec e now); [right; left | right; right]; auto.
Qed.

(** C2 as stated fails for a window whose end precedes its start, which
    [create_auction] accepts: at 7, with start 10 and end 5, [now] is before
    the start, yet the status is "ended" and [has_ended] is set. *)
Lemma clock_policy_inverted_window :
  7 < 10 /\
  create_status 7 10 5 = "ended" /\
  create_status 7 10 5 <> "scheduled" /\
  snd (create_auction db0 7 (mkCreateAuction "x" None None f100 10 5 [])) =
    inr id1 /\
  map status (auction (fst (create_auction db0 7
                 (mkCreateAuction "x" None None f100 10 5 [])))) = ["ended"] /\
  has_ended (decorate 7 (mkAuction oid1 None "x" None None None None 10 5
                                   "scheduled" [] None)) = true.
Proof. repeat split; try reflexivity; try lia. discriminate. Qed.

(** C2, amended: for every window with [start_time <= end_time] and every
    [now], the status computed at creation is one of "scheduled", "live",
    "ended": "scheduled" exactly when [now < start_time], "live" exactly when
    [start_time <= now <= end_time] (both ends included), "ended" exactly
    when [now > end_time]; in the listing, [is_live] is set exactly in the
    second case and [has_ended] exactly in the third. *)
Theorem clock_policy (now s e : datetime) :
  s <= e ->
  (create_status now s e = "scheduled" \/ create_status now s e = "live" \/
   create_status now s e = "ended") /\
  (now < s <-> create_status now s e = "scheduled") /\
  (s <= now <= e <-> create_status now s e = "live") /\
  (e < now <-> create_status now s e = "ended") /\
  (forall a, start_time a = s -> end_time a = e ->
     (is_live (decorate now a) = true <-> s <= now <= e) /\
     (has_ended (decorate now a) = true <-> e < now)).
Proof.
  intros Hse.
  assert (Hflags : forall a, start_time a = s -> end_time a = e ->
            (is_live (decorate now a) = true <-> s <= now <= e) /\
            (has_ended (decorate now a) = true <-> e < now)).
  { intros a <- <-. cbn. rewrite in_window_spec, Z.ltb_lt. tauto. }
  destruct (create_status_cases now s e)
    as [[H1 ->]|[(H1 & H2 & ->)|(H1 & H2 & ->)]].
  - split; [auto|]. do 3 (split; [split; intro; first [lia | discriminate | auto]|]).
    exact Hflags.
  - split; [auto|]. do 3 (split; [split; intro; first [lia | discriminate | auto]|]).
    exact Hflags.
  - split; [auto|]. do 3 (split; [split; intro; first [lia | discriminate | auto]|]).
    exact Hflags.
Qed.

Lemma clock_policy_witness :
  create_status 1000 1000 2000 = "live" /\
  create_status 2000 1000 2000 = "live" /\
  create_status 2001 1000 2000 = "ended" /\
  create_status 999 1000 2000 = "scheduled".
Proof.
  assert (W : 1000 <= 2000) by lia.
  destruct (clock_policy 1000 1000 2000 W) as (_ & _ & H1 & _).
  destruct (clock_policy 2000 1000 2000 W) as (_ & _ & H2 & _).
  destruct (clock_policy 2001 1000 2000 W) as (_ & _ & _ & H3 & _).
  destruct (clock_policy 999 1000 2000 W) as (_ & H4 & _).
  split; [apply H1; lia|]. split; [apply H2; lia|].
  split; [apply H3; lia | apply H4; lia].
Defined.

(** ** Monotonicity of the price *)

(** The test [amount <= current_price] lets a NaN pass: on a live auction a
    bid whose amount is NaN is accepted whatever the price, and once the
    price is NaN every bid is accepted. *)
Lemma place_bid_nan_passes (d : DB) (now : datetime) (aid : string)
      (payload : PlaceBidRequest) (i : oid) (a : AuctionDoc) (cur : float) :
  ObjectId aid = inr i ->
  find_one (auction d) i = Some a ->
  in_window now (start_time a) (end_time a) = true ->
  read_price a = inr cur ->
  is_nan (req_amount payload) = true \/ is_nan cur = true ->
  place_bid d now aid payload =
    (accepting d now aid i payload,
     inr (mkBidResponse (str_oid (next_oid d)) (req_amount payload))).
Proof.
  intros Hid Hfind Hwin Hread Hnan.
  rewrite (place_bid_found d now aid payload i a cur Hid Hfind Hread), Hwin.
  cbn [negb].
  assert (E : float_le (req_amount payload) cur = false).
  { destruct Hnan as [H|H].
    - destruct (req_amount payload); try discriminate. apply nan_not_le.
    - destruct cur; try discriminate. apply not_le_nan. }
  now rewrite E.
Qed.

(** C3, at the failing input: a bid whose amount is NaN passes the test
    [amount <= current_price] (the comparison is false), so it is accepted
    over the price 100 and stored as the current price; the next bid, 50,
    passes the same test against NaN and brings the price down to 50. *)
Theorem nan_bid_lowers_price :
  let r1 := place_bid db1 1500 id1 (mkPlaceBid "A" nan) in
  let r2 := place_bid (fst r1) 1500 id1 (mkPlaceBid "B" f50) in
  option_map current_price (find_one (auction db1) oid1) = Some (Some (PyFloat f100)) /\
  snd r1 = inr (mkBidResponse "65a000000000000000000002" nan) /\
  option_map current_price (find_one (auction (fst r1)) oid1) = Some (Some (PyFloat nan)) /\
  float_lt f100 nan = false /\
  snd r2 = inr (mkBidResponse "65a000000000000000000003" f50) /\
  option_map current_price (find_one (auction (fst r2)) oid1) = Some (Some (PyFloat f50)) /\
  float_lt f50 f100 = true.
Proof. vm_compute. repeat split. Qed.

(** ** Listing auctions *)

Lemma decorate_all_nth (clock : nat -> datetime) (l : list AuctionDoc) :
  forall k0 k it,
    nth_error (decorate_all clock k0 l) k = Some it ->
    exists a, nth_error l k = Some a /\ it = decorate (clock (k0 + k)%nat) a.
Proof.
  induction l as [|a l IH]; intros k0 k it; cbn.
  - destruct k; discriminate.
  - destruct k as [|k]; cbn.
    + intros [= <-]. exists a. now rewrite Nat.add_0_r.
    + intros H. destruct (IH (S k0) k it H) as (b & Hb & ->).
      exists b. split; [assumption|]. now rewrite Nat.add_succ_r.
Qed.

Lemma In_firstn {A} (n : nat) (l : list A) (x : A) :
  In x (firstn n l) -> In x l.
Proof.
  intros H. rewrite <- (firstn_skipn n l). apply in_or_app. now left.
Qed.

Lemma get_documents_In (l : list AuctionDoc) (f : filter_dict) (limit : Z)
      (a : AuctionDoc) :
  In a (get_documents l f limit) -> In a l /\ matches f a = true.
Proof.
  unfold get_documents. intros H. apply In_firstn in H.
  now apply filter_In in H.
Qed.

Lemma list_auctions_nth (d : DB) (clock : nat -> datetime)
      (st : option string) (limit : Z) (k : nat) (it : AuctionItem) :
  nth_error (list_auctions d clock st limit) k = Some it ->
  exists f a,
    In a (get_documents (auction d) f limit) /\
    (forall c s, st = Some (String c s) -> f = [("status", String c s)]) /\
    it = decorate (clock k) a.
Proof.
  unfold list_auctions. intros H.
  apply decorate_all_nth in H. destruct H as (a & Ha & ->).
  apply nth_error_In in Ha. cbn [Nat.add].
  destruct st as [[|c s]|]; eexists; exists a;
    (split; [eassumption|]); (split; [|reflexivity]);
    intros c' s' [= ]; subst; reflexivity.
Qed.

(** C8 as stated fails: the clock is read inside the loop, once per
    auction.  With two auctions open until 2000 and a clock that reads 1500
    and then 2500, the first is reported live and the second ended, which no
    single [now] explains. *)
Lemma list_auctions_two_readings :
  map (fun it => (is_live it, has_ended it)) (list_auctions db2 clock2 None 20) =
    [(true, false); (false, true)] /\
  ~ exists now,
      Forall (fun it =>
                is_live it = in_window now (start_time (item_doc it))
                                       (end_time (item_doc it)) /\
                has_ended it = (end_time (item_doc it) <? now)%Z)
             (list_auctions db2 clock2 None 20).
Proof.
  split; [reflexivity|].
  intros [now H]. vm_compute list_auctions in H.
  inversion H as [|x l [H1 _] H' E]; subst.
  inversion H' as [|x l [_ H2] _ E]; subst.
  cbn in H1, H2. symmetry in H1, H2.
  apply in_window_spec in H1. apply Z.ltb_lt in H2. lia.
Qed.

(** C8, amended: the [k]-th auction of a listing gets both of its flags
    from one clock reading, the [k]-th of the request, so the two flags of
    one auction are never both set; different auctions of the same answer
    are judged at different readings. *)
Theorem list_auctions_one_reading_per_auction (d : DB) (clock : nat -> datetime)
        (st : option string) (limit : Z) (k : nat) (it : AuctionItem) :
  nth_error (list_auctions d clock st limit) k = Some it ->
  is_live it = in_window (clock k) (start_time (item_doc it)) (end_time (item_doc it)) /\
  has_ended it = (end_time (item_doc it) <? clock k)%Z /\
  (is_live it = true -> has_ended it = false).
Proof.
  intros H. apply list_auctions_nth in H. destruct H as (f & a & _ & _ & ->).
  cbn. repeat split. intros Hl. apply in_window_spec in Hl.
  apply Z.ltb_ge. lia.
Qed.

Lemma list_auctions_one_reading_per_auction_witness :
  nth_error (list_auctions db2 clock2 None 20) 1 = Some (decorate 2500 auction2) /\
  has_ended (decorate 2500 auction2) = (end_time auction2 <? clock2 1)%Z.
Proof.
  assert (H : nth_error (list_auctions db2 clock2 None 20) 1 =
              Some (decorate 2500 auction2)) by reflexivity.
  split; [exact H|].
  destruct (list_auctions_one_reading_per_auction db2 clock2 None 20 1
              (decorate 2500 auction2) H) as (_ & He & _).
  exact He.
Defined.






(** ** Top bids *)

Lemma insert_desc_perm (b : BidDoc) (l : list BidDoc) :
  Permutation (insert_desc b l) (b :: l).
Proof.
  induction l as [|c l IH]; cbn; [reflexivity|].
  destruct (bson_lt (amount b) (amount c)); [|reflexivity].
  rewrite IH. apply perm_swap.
Qed.

Lemma sort_amount_desc_perm (l : list BidDoc) :
  Permutation (sort_amount_desc l) l.
Proof.
  induction l as [|b l IH]; cbn; [reflexivity|].
  rewrite insert_desc_perm. now apply perm_skip.
Qed.

Lemma insert_desc_sorted (b : BidDoc) (l : list BidDoc) :
  StronglySorted amount_ge l -> StronglySorted amount_ge (insert_desc b l).
Proof.
  induction 1 as [|c l Hs IH Hc]; cbn.
  - constructor; constructor.
  - unfold bson_lt. destruct (bson_le (amount c) (amount b)) eqn:E; cbn.
    + constructor; [now constructor|].
      constructor; [exact E|].
      rewrite Forall_forall in *. intros x Hx. unfold amount_ge in *.
      apply (bson_le_trans _ (amount c)); [now apply Hc | exact E].
    + constructor; [exact IH|].
      rewrite Forall_forall in *. intros x Hx.
      apply (Permutation_in _ (insert_desc_perm b l)) in Hx.
      destruct Hx as [<-|Hx]; [|now apply Hc].
      now apply bson_le_total.
Qed.

Lemma sort_amount_desc_sorted (l : list BidDoc) :
  StronglySorted amount_ge (sort_amount_desc l).
Proof.
  induction l as [|b l IH]; cbn; [constructor | now apply insert_desc_sorted].
Qed.

Lemma sorted_firstn_skipn (n : nat) (l : list BidDoc) :
  StronglySorted amount_ge l ->
  StronglySorted amount_ge (firstn n l) /\
  forall b c, In b (firstn n l) -> In c (skipn n l) -> amount_ge b c.
Proof.
  intros H. revert n. induction H as [|x l Hs IH Hx]; intros n.
  - rewrite firstn_nil, skipn_nil. split; [constructor | intros ? ? []].
  - destruct n as [|n]; cbn.
    + split; [constructor | intros ? ? []].
    + destruct (IH n) as [IH1 IH2]. rewrite Forall_forall in Hx. split.
      * constructor; [exact IH1|]. rewrite Forall_forall.
        intros y Hy. apply Hx. now apply In_firstn in Hy.
      * intros b c [<-|Hb] Hc; [|now apply IH2].
        apply Hx. rewrite <- (firstn_skipn n l). apply in_or_app. now right.
Qed.


(** C9 as stated fails on the order of equal amounts: the query sorts on
    [amount] alone.  After two bids of 150 raced (both were accepted, "early"
    inserted first), a store that feeds the matching bids to the sort in
    reverse order returns "late" before "early". *)
Lemma top_bids_tie_order_depends_on_store :
  map (fun b => (bidder_name b, amount b)) (bid db_tie) =
    [("early", f150); ("late", f150)] /\
  (forall l : list BidDoc, Permutation (rev l) l) /\
  match get_auction (@rev BidDoc) db_tie id1 with
  | inr v => map (fun b => bidder_name (bid_doc b)) (top_bids v) = ["late"; "early"]
  | inl _ => False
  end.
Proof.
  split; [vm_compute; reflexivity|]. split; [|vm_compute; reflexivity].
  intros l. symmetry. apply Permutation_rev.
Qed.

(** C9, amended: the detail of an auction carries at most 10 bids; they are
    bids of that auction, listed by amount descending, and every bid of the
    auction that is left out has an amount no higher than each bid listed
    (bids are left out only when 10 are listed).  The order among bids of
    equal amount is whatever order the store feeds them to the sort in. *)
Theorem top_bids_highest (scan : list BidDoc -> list BidDoc) (d : DB)
        (aid : string) (v : AuctionDetail) :
  (forall l, Permutation (scan l) l) ->
  get_auction scan d aid = inr v ->
  let top := map bid_doc (top_bids v) in
  (List.length (top_bids v) <= 10)%nat /\
  StronglySorted amount_ge top /\
  exists rest,
    Permutation (top ++ rest)
                (filter (fun b => String.eqb (auction_id b) aid) (bid d)) /\
    (forall b c, In b top -> In c rest -> amount_ge b c) /\
    (rest <> [] -> List.length top = 10%nat).
Proof.
  intros Hscan. unfold get_auction.
  destruct (ObjectId aid) as [e|i]; [discriminate|].
  destruct (find_one (auction d) i) as [a|]; [|discriminate].
  intros H. unfold ret in H.
  assert (Hv : v = mkDetail a (str_oid (a_id a))
                 (map (fun b => mkBidItem b (str_oid (b_id b)))
                      (firstn 10 (sort_amount_desc (scan
                         (filter (fun b => String.eqb (auction_id b) aid) (bid d)))))))
    by congruence.
  clear H. rewrite Hv. clear Hv.
  change (top_bids (mkDetail ?x ?y ?z)) with z.
  set (found := filter _ (bid d)).
  set (sorted := sort_amount_desc (scan found)).
  assert (Hmap : map bid_doc (map (fun b => mkBidItem b (str_oid (b_id b)))
                                  (firstn 10 sorted)) = firstn 10 sorted).
  { rewrite map_map. apply map_id. }
  rewrite Hmap, length_map.
  destruct (sorted_firstn_skipn 10 sorted (sort_amount_desc_sorted _)) as [S1 S2].
  split; [apply firstn_le_length|]. split; [exact S1|].
  exists (skipn 10 sorted). split; [|split].
  - rewrite firstn_skipn. unfold sorted.
    rewrite sort_amount_desc_perm. apply Hscan.
  - exact S2.
  - intros Hrest. rewrite length_firstn. apply Nat.min_l.
    destruct (Nat.le_gt_cases 10 (List.length sorted)) as [|Hlt]; [assumption|].
    exfalso. apply Hrest. apply skipn_all2. lia.
Qed.

Lemma top_bids_highest_witness :
  get_auction (@rev BidDoc) db_tie id1 = inr detail_tie /\
  (List.length (top_bids detail_tie) <= 10)%nat /\
  StronglySorted amount_ge (map bid_doc (top_bids detail_tie)).
Proof.
  assert (H : get_auction (@rev BidDoc) db_tie id1 = inr detail_tie)
    by (vm_compute; reflexivity).
  split; [exact H|].
  destruct (top_bids_highest (@rev BidDoc) db_tie id1 detail_tie)
    as (Hlen & Hsorted & _).
  - intros l. symmetry. apply Permutation_rev.
  - exact H.
  - split; [exact Hlen | exact Hsorted].
Defined.

(** ** Bids in turn, and bids that race *)

Lemma last_cons {A} (x d : A) (l : list A) : last (x :: l) d = last l x.
Proof.
  revert x d. induction l as [|y l IH]; intros x d; [reflexivity|].
  change (last (x :: y :: l) d) with (last (y :: l) d). now rewrite !IH.
Qed.

Lemma increasing_from_le_last (l : list float) :
  forall x, is_nan x = false -> increasing_from x l ->
            float_le x (last l x) = true.
Proof.
  induction l as [|y l IH]; intros x Hx; cbn [increasing_from].
  - intros _. now apply float_le_refl.
  - intros [Hxy Hl]. rewrite last_cons.
    apply (float_le_trans _ y); [now apply float_lt_le|].
    apply IH; [|exact Hl]. now apply float_lt_not_nan in Hxy.
Qed.

Lemma increasing_from_max (l : list float) :
  forall x, increasing_from x l ->
            Forall (fun y => float_le y (last l x) = true) l.
Proof.
  induction l as [|y l IH]; intros x; cbn [increasing_from]; [constructor|].
  intros [Hxy Hl]. rewrite last_cons.
  pose proof (float_lt_not_nan _ _ Hxy) as [_ Hy].
  constructor; [now apply increasing_from_le_last | now apply IH].
Qed.

Lemma place_bids_chain (aid : string) (i : oid)
      (reqs : list (datetime * PlaceBidRequest)) :
  ObjectId aid = inr i ->
  Forall (fun r => is_nan (req_amount (snd r)) = false) reqs ->
  forall d a cur,
    find_one (auction d) i = Some a -> price_is a cur -> is_nan cur = false ->
    increasing_from cur (accepted (snd (place_bids d aid reqs))) /\
    exists a', find_one (auction (fst (place_bids d aid reqs))) i = Some a' /\
               price_is a' (last (accepted (snd (place_bids d aid reqs))) cur).
Proof.
  intros Hid. induction 1 as [|[now payload] reqs Hnan _ IH];
    intros d a cur Hfind Hprice Hcur.
  - cbn. split; [exact I | exists a; auto].
  - cbn [place_bids snd] in *.
    rewrite (place_bid_found d now aid payload i a cur Hid Hfind
               (read_price_is a cur Hprice)).
    destruct (negb _).
    { specialize (IH d a cur Hfind Hprice Hcur).
      destruct (place_bids d aid reqs) as [d2 rs]. exact IH. }
    destruct (float_le (req_amount payload) cur) eqn:Hle.
    { specialize (IH d a cur Hfind Hprice Hcur).
      destruct (place_bids d aid reqs) as [d2 rs]. exact IH. }
    specialize (IH (accepting d now aid i payload)
                   (set_price (req_amount payload) now a) (req_amount payload)).
    destruct (place_bids (accepting d now aid i payload) aid reqs) as [d2 rs].
    cbn [fst snd accepted resp_current_price] in *. rewrite last_cons.
    destruct IH as [IH1 IH2].
    + apply find_one_update_one; [apply set_price_id | exact Hfind].
    + apply price_is_set_price.
    + exact Hnan.
    + split; [|exact IH2]. cbn [increasing_from]. split; [|exact IH1].
      now apply float_not_le_lt.
Qed.

(** C7 as stated fails: there is no compare-and-set and no retry, and two
    requests that both read the price 100 before either writes are both
    accepted; the bid of 120 writes last and the price ends at 120, below the
    accepted 150. *)
Lemma racing_bids_lose_an_update :
  let r := run race db1 two_bids in
  map thread_result (snd r) =
    [Some (inr (mkBidResponse "65a000000000000000000002" f150));
     Some (inr (mkBidResponse "65a000000000000000000003" f120))] /\
  map amount (bid (fst r)) = [f150; f120] /\
  option_map current_price (find_one (auction (fst r)) oid1) =
    Some (Some (PyFloat f120)) /\
  float_lt f120 f150 = true.
Proof. vm_compute. repeat split. Qed.

(** C7, amended: the price is updated by a plain write, with no
    compare-and-set and no retry: the update step of a request sets the
    price to its amount whatever price is stored by then.  For bids that are
    numbers and are handled in turn (each request finished before the next
    starts) on an auction whose price is a number, every accepted amount is
    strictly greater than the price at its acceptance, and the final price
    is the last accepted amount, which is the maximum of the accepted
    amounts (the price is unchanged when no bid is accepted). *)
Theorem bids_in_turn_reach_the_maximum (d : DB) (aid : string) (i : oid)
        (reqs : list (datetime * PlaceBidRequest)) (a : AuctionDoc) (cur : float) :
  ObjectId aid = inr i ->
  find_one (auction d) i = Some a ->
  price_is a cur ->
  is_nan cur = false ->
  Forall (fun r => is_nan (req_amount (snd r)) = false) reqs ->
  let d' := fst (place_bids d aid reqs) in
  let acc := accepted (snd (place_bids d aid reqs)) in
  increasing_from cur acc /\
  (exists a', find_one (auction d') i = Some a' /\ price_is a' (last acc cur)) /\
  Forall (fun x => float_le x (last acc cur) = true) acc /\
  (forall d0 d1 a0 c0 now payload r,
      find_one (auction d0) i = Some a0 ->
      read_price a0 = inr c0 ->
      is_nan c0 = false -> is_nan (req_amount payload) = false ->
      place_bid d0 now aid payload = (d1, inr r) ->
      float_lt c0 (req_amount payload) = true) /\
  (forall d0 a0 now inserted_id payload,
      find_one (auction d0) i = Some a0 ->
      find_one (auction (fst (step d0 (Inserted now i inserted_id payload)))) i =
        Some (set_price (req_amount payload) now a0)).
Proof.
  intros Hid Hfind Hprice Hcur Hnan d' acc.
  destruct (place_bids_chain aid i reqs Hid Hnan d a cur Hfind Hprice Hcur)
    as [Hinc Hfinal].
  split; [exact Hinc|]. split; [exact Hfinal|].
  split; [now apply increasing_from_max|]. split.
  - intros d0 d1 a0 c0 now payload r H0 Hr Hc0 Hp H.
    apply place_bid_accept_inv in H.
    destruct H as (i' & a' & cur' & Hid' & Hf' & _ & Hr' & Hle & _).
    assert (i' = i) by congruence. subst i'.
    assert (a' = a0) by congruence. subst a'.
    assert (cur' = c0) by congruence. subst cur'.
    now apply float_not_le_lt.
  - intros d0 a0 now inserted_id payload H0. cbn.
    apply find_one_update_one; [apply set_price_id | exact H0].
Qed.

Lemma bids_in_turn_reach_the_maximum_witness :
  exists a',
    find_one (auction (fst (place_bids db1 id1
       [(1500, mkPlaceBid "A" f150); (1500, mkPlaceBid "B" f120);
        (1500, mkPlaceBid "C" f200)]))) oid1 = Some a' /\
    price_is a' f200.
Proof.
  destruct (bids_in_turn_reach_the_maximum db1 id1 oid1
              [(1500, mkPlaceBid "A" f150); (1500, mkPlaceBid "B" f120);
               (1500, mkPlaceBid "C" f200)] auction1 f100)
    as (_ & Hfinal & _).
  - reflexivity.
  - reflexivity.
  - left; reflexivity.
  - reflexivity.
  - repeat constructor.
  - exact Hfinal.
Defined.

(** * Further properties of the endpoints *)

(** ** place_bid: the window and the price keys *)

Lemma in_window_false (now s e : datetime) :
  now < s \/ e < now -> in_window now s e = false.
Proof.
  intros H. destruct (in_window now s e) eqn:W; [|reflexivity].
  apply in_window_spec in W. lia.
Qed.

(** X1: a bid placed before [start_time] or after [end_time] of a stored
    auction is refused with the 400 error "Auction is not live" and nothing
    is stored, whatever the amount and whatever the price fields hold: the
    window is tested before the price is read. *)
Theorem place_bid_outside_window (d : DB) (now : datetime) (aid : string)
        (payload : PlaceBidRequest) (i : oid) (a : AuctionDoc) :
  ObjectId aid = inr i ->
  find_one (auction d) i = Some a ->
  now < start_time a \/ end_time a < now ->
  place_bid d now aid payload =
    (d, inl (HTTPException 400 "Auction is not live")).
Proof.
  intros Hid Hfind Hout. unfold place_bid, check_bid.
  rewrite Hid, Hfind, (in_window_false _ _ _ Hout). reflexivity.
Qed.

Lemma place_bid_outside_window_witness :
  place_bid (mkDB [auction_null_price] [] (N.succ oid1)) 2001 id1
            (mkPlaceBid "A" (S754_infinity false)) =
    (mkDB [auction_null_price] [] (N.succ oid1),
     inl (HTTPException 400 "Auction is not live")).
Proof.
  apply (place_bid_outside_window _ 2001 id1 _ oid1 auction_null_price).
  - reflexivity.
  - reflexivity.
  - right. cbn. lia.
Defined.

(** X2: a price field that is present but null is not replaced by a
    default.  On a live auction whose [current_price] is null, or whose
    [current_price] is missing while [starting_price] is null, [place_bid]
    raises [TypeError] (the client gets 500) for every amount, and nothing
    is stored. *)
Theorem place_bid_null_price (d : DB) (now : datetime) (aid : string)
        (payload : PlaceBidRequest) (i : oid) (a : AuctionDoc) :
  ObjectId aid = inr i ->
  find_one (auction d) i = Some a ->
  in_window now (start_time a) (end_time a) = true ->
  current_price a = Some PyNone \/
  (current_price a = None /\ starting_price a = Some PyNone) ->
  place_bid d now aid payload = (d, inl TypeError) /\
  http_status TypeError = 500.
Proof.
  intros Hid Hfind Hwin Hnull. split; [|reflexivity].
  unfold place_bid, check_bid, read_price.
  rewrite Hid, Hfind, Hwin. cbn [negb].
  destruct Hnull as [H|[H1 H2]].
  - rewrite H. reflexivity.
  - rewrite H1, H2. reflexivity.
Qed.

Lemma place_bid_null_price_witness :
  place_bid (mkDB [auction_null_price] [] (N.succ oid1)) 1500 id1
            (mkPlaceBid "A" f150) =
    (mkDB [auction_null_price] [] (N.succ oid1), inl TypeError).
Proof.
  apply (place_bid_null_price _ 1500 id1 _ oid1 auction_null_price).
  - reflexivity.
  - reflexivity.
  - reflexivity.
  - left. reflexivity.
Defined.

(** X3: on a live auction whose document has neither [current_price] nor
    [starting_price], the bid competes with 0.0: every amount above zero is
    accepted and becomes the price, every amount at or below zero is refused
    with "Bid must be higher than current price". *)
Theorem place_bid_no_price_keys (d : DB) (now : datetime) (aid : string)
        (payload : PlaceBidRequest) (i : oid) (a : AuctionDoc) :
  ObjectId aid = inr i ->
  find_one (auction d) i = Some a ->
  in_window now (start_time a) (end_time a) = true ->
  current_price a = None ->
  starting_price a = None ->
  (float_lt zero (req_amount payload) = true ->
   place_bid d now aid payload =
     (accepting d now aid i payload,
      inr (mkBidResponse (str_oid (next_oid d)) (req_amount payload)))) /\
  (float_le (req_amount payload) zero = true ->
   place_bid d now aid payload =
     (d, inl (HTTPException 400 "Bid must be higher than current price"))).
Proof.
  intros Hid Hfind Hwin Hc Hs.
  assert (Hread : read_price a = inr zero).
  { unfold read_price. rewrite Hc, Hs. reflexivity. }
  rewrite (place_bid_found d now aid payload i a zero Hid Hfind Hread), Hwin.
  cbn [negb]. split; intros H.
  - now rewrite (float_lt_not_le _ _ H).
  - now rewrite H.
Qed.

Lemma place_bid_no_price_keys_witness :
  snd (place_bid (mkDB [auction_no_price] [] (N.succ oid1)) 1500 id1
                 (mkPlaceBid "A" f50)) =
    inr (mkBidResponse "65a000000000000000000002" f50).
Proof.
  destruct (place_bid_no_price_keys (mkDB [auction_no_price] [] (N.succ oid1))
              1500 id1 (mkPlaceBid "A" f50) oid1 auction_no_price)
    as [Hacc _].
  - reflexivity.
  - reflexivity.
  - reflexivity.
  - reflexivity.
  - reflexivity.
  - rewrite Hacc; reflexivity.
Defined.

(** X4: an auction whose [end_time] precedes its [start_time] is never
    live: at every reading of the clock the status computed at creation is
    "scheduled" or "ended", the listing never sets [is_live], and every bid
    on it is refused with "Auction is not live". *)
Theorem inverted_window_never_live (a : AuctionDoc) (now : datetime) :
  end_time a < start_time a ->
  is_live (decorate now a) = false /\
  (create_status now (start_time a) (end_time a) = "scheduled" \/
   create_status now (start_time a) (end_time a) = "ended") /\
  (forall d aid payload i,
      ObjectId aid = inr i -> find_one (auction d) i = Some a ->
      place_bid d now aid payload =
        (d, inl (HTTPException 400 "Auction is not live"))).
Proof.
  intros Hinv.
  assert (W : in_window now (start_time a) (end_time a) = false)
    by (apply in_window_false; lia).
  split; [exact W|]. split.
  - unfold create_status. rewrite W.
    destruct (end_time a <? now)%Z; auto.
  - intros d aid payload i Hid Hfind. unfold place_bid, check_bid.
    rewrite Hid, Hfind, W. reflexivity.
Qed.

Lemma inverted_window_never_live_witness :
  is_live (decorate 1500 auction_inverted) = false /\
  place_bid (mkDB [auction_inverted] [] (N.succ oid1)) 1500 id1
            (mkPlaceBid "A" f150) =
    (mkDB [auction_inverted] [] (N.succ oid1),
     inl (HTTPException 400 "Auction is not live")).
Proof.
  destruct (inverted_window_never_live auction_inverted 1500) as (H1 & _ & H3).
  - cbn. lia.
  - split; [exact H1|]. apply (H3 _ id1 _ oid1); reflexivity.
Defined.

(** X5: on a live auction a bid whose amount is NaN is accepted whatever
    the price, because the test [amount <= current_price] is false; NaN is
    then the stored price, so the next bid placed inside the window is
    accepted as well, whatever its amount. *)
Theorem nan_bid_opens_the_auction (d : DB) (now : datetime) (aid : string)
        (payload : PlaceBidRequest) (i : oid) (a : AuctionDoc) (cur : float) :
  ObjectId aid = inr i ->
  find_one (auction d) i = Some a ->
  in_window now (start_time a) (end_time a) = true ->
  read_price a = inr cur ->
  is_nan (req_amount payload) = true ->
  place_bid d now aid payload =
    (accepting d now aid i payload,
     inr (mkBidResponse (str_oid (next_oid d)) (req_amount payload))) /\
  (forall now2 payload2,
      in_window now2 (start_time a) (end_time a) = true ->
      snd (place_bid (accepting d now aid i payload) now2 aid payload2) =
        inr (mkBidResponse (str_oid (N.succ (next_oid d))) (req_amount payload2))).
Proof.
  intros Hid Hfind Hwin Hread Hnan. split.
  - apply (place_bid_nan_passes d now aid payload i a cur); auto.
  - intros now2 payload2 Hwin2.
    rewrite (place_bid_nan_passes (accepting d now aid i payload) now2 aid
               payload2 i (set_price (req_amount payload) now a)
               (req_amount payload)); auto.
    apply find_one_update_one; [apply set_price_id | exact Hfind].
Qed.

Lemma nan_bid_opens_the_auction_witness :
  snd (place_bid (accepting db1 1500 id1 oid1 (mkPlaceBid "A" nan)) 1600 id1
                 (mkPlaceBid "B" f50)) =
    inr (mkBidResponse "65a000000000000000000003" f50).
Proof.
  destruct (nan_bid_opens_the_auction db1 1500 id1 (mkPlaceBid "A" nan)
              oid1 auction1 f100) as [_ H].
  - reflexivity.
  - reflexivity.
  - reflexivity.
  - reflexivity.
  - reflexivity.
  - rewrite (H 1600 (mkPlaceBid "B" f50)); reflexivity.
Defined.

(** ** What bidding leaves alone *)

Lemma same_frame_refl (a : AuctionDoc) : same_frame a a.
Proof. unfold same_frame. repeat split. Qed.

Lemma same_frame_trans (a b c : AuctionDoc) :
  same_frame a b -> same_frame b c -> same_frame a c.
Proof.
  unfold same_frame.
  intros (A1 & A2 & A3 & A4 & A5 & A6 & A7 & A8 & A9 & A10)
         (B1 & B2 & B3 & B4 & B5 & B6 & B7 & B8 & B9 & B10).
  repeat split; congruence.
Qed.

Lemma same_frame_set_price (x : float) (now : datetime) (a : AuctionDoc) :
  same_frame a (set_price x now a).
Proof. unfold same_frame. repeat split. Qed.

Lemma Forall2_same_frame_refl (l : list AuctionDoc) : Forall2 same_frame l l.
Proof. induction l; constructor; auto using same_frame_refl. Qed.

Lemma Forall2_same_frame_trans (l1 l2 l3 : list AuctionDoc) :
  Forall2 same_frame l1 l2 -> Forall2 same_frame l2 l3 ->
  Forall2 same_frame l1 l3.
Proof.
  intros H. revert l3. induction H as [|a b l1 l2 Hab _ IH]; intros l3 H23.
  - inversion H23. constructor.
  - inversion H23 as [|b0 c l20 l30 Hbc Hrest]; subst.
    constructor; [eapply same_frame_trans; eassumption | now apply IH].
Qed.

Lemma update_one_same_frame (i : oid) (x : float) (now : datetime)
      (l : list AuctionDoc) :
  Forall2 same_frame l (update_one i (set_price x now) l).
Proof.
  induction l as [|a l IH]; cbn; [constructor|].
  destruct (N.eqb (a_id a) i).
  - constructor; [apply same_frame_set_price | apply Forall2_same_frame_refl].
  - constructor; [apply same_frame_refl | exact IH].
Qed.

Lemma extends_refl (d : DB) : extends d d.
Proof.
  split; [apply Forall2_same_frame_refl|]. split.
  - exists []. now rewrite app_nil_r.
  - reflexivity.
Qed.

Lemma extends_trans (d1 d2 d3 : DB) :
  extends d1 d2 -> extends d2 d3 -> extends d1 d3.
Proof.
  intros (A1 & (n1 & A2) & A3) (B1 & (n2 & B2) & B3). split; [|split].
  - eapply Forall2_same_frame_trans; eassumption.
  - exists (n1 ++ n2)%list. rewrite B2, A2. now rewrite app_assoc.
  - etransitivity; eassumption.
Qed.

Lemma step_extends (d : DB) (t : thread) : extends d (fst (step d t)).
Proof.
  destruct t as [now aid payload|now aid i payload|now i ins payload|r]; cbn.
  - destruct (check_bid d now aid payload); apply extends_refl.
  - split; [apply Forall2_same_frame_refl|]. split.
    + eexists. reflexivity.
    + cbn. lia.
  - split; [apply update_one_same_frame|]. split.
    + exists []. cbn. now rewrite app_nil_r.
    + reflexivity.
  - apply extends_refl.
Qed.

Lemma run_extends (sched : list nat) :
  forall d ts, extends d (fst (run sched d ts)).
Proof.
  induction sched as [|k sched IH]; intros d ts; cbn.
  - apply extends_refl.
  - destruct (nth_error ts k) as [t|]; [|apply IH].
    pose proof (step_extends d t) as Hs.
    destruct (step d t) as [d1 t1]. cbn in Hs.
    eapply extends_trans; [exact Hs | apply IH].
Qed.

Lemma place_bid_extends (d : DB) (now : datetime) (aid : string)
      (payload : PlaceBidRequest) :
  extends d (fst (place_bid d now aid payload)).
Proof.
  unfold place_bid. destruct (check_bid d now aid payload) as [e|i]; cbn.
  - apply extends_refl.
  - split; [apply update_one_same_frame|]. split.
    + eexists. reflexivity.
    + cbn. lia.
Qed.

(** X6: bidding never adds, removes or reorders auctions and never touches
    an auction's id, title, window, stored status, starting price or tags
    (only [current_price] and [updated_at] change); it never rewrites or
    removes a stored bid, it only appends.  This holds for one call, for
    calls in turn, and for any interleaving of the store operations of any
    requests. *)
Theorem bidding_only_appends_and_reprices :
  (forall d now aid payload, extends d (fst (place_bid d now aid payload))) /\
  (forall reqs d aid, extends d (fst (place_bids d aid reqs))) /\
  (forall sched d ts, extends d (fst (run sched d ts))).
Proof.
  split; [exact place_bid_extends|]. split; [|exact run_extends].
  induction reqs as [|[now payload] reqs IH]; intros d aid; cbn.
  - apply extends_refl.
  - pose proof (place_bid_extends d now aid payload) as H1.
    destruct (place_bid d now aid payload) as [d1 r]. cbn in H1.
    pose proof (IH d1 aid) as H2.
    destruct (place_bids d1 aid reqs) as [d2 rs]. cbn in *.
    eapply extends_trans; eassumption.
Qed.

(** ** Amounts stay positive *)

Lemma float_le_lt_trans (x y z : float) :
  float_le x y = true -> float_lt y z = true -> float_lt x z = true.
Proof.
  unfold float_le, float_lt, SFleb, SFltb.
  destruct x as [sx|sx| |sx mx ex], y as [sy|sy| |sy my ey],
           z as [sz|sz| |sz mz ez]; float_order.
Qed.

Lemma float_le_not_nan (x y : float) :
  float_le x y = true -> is_nan x = false /\ is_nan y = false.
Proof.
  unfold float_le, SFleb. destruct x, y; cbn; try easy.
Qed.

Lemma Forall_update_one (P : AuctionDoc -> Prop) (i : oid)
      (f : AuctionDoc -> AuctionDoc) (l : list AuctionDoc) :
  (forall a, P a -> P (f a)) -> Forall P l -> Forall P (update_one i f l).
Proof.
  intros Hf. induction 1 as [|a l Ha Hl IH]; cbn; [constructor|].
  destruct (N.eqb (a_id a) i); constructor; auto.
Qed.

Lemma price_nonneg_set_price (x : float) (now : datetime) (a : AuctionDoc) :
  float_lt zero x = true -> price_nonneg (set_price x now a).
Proof.
  intros H. exists x. split; [reflexivity | now apply float_lt_le].
Qed.

Lemma check_bid_positive (d : DB) (now : datetime) (aid : string)
      (payload : PlaceBidRequest) (i : oid) :
  Forall price_nonneg (auction d) ->
  is_nan (req_amount payload) = false ->
  check_bid d now aid payload = inr i ->
  float_lt zero (req_amount payload) = true.
Proof.
  intros Hinv Hnan Hc.
  destruct (check_bid_ok _ _ _ _ _ Hc) as (a & cur & _ & Hf & _ & Hr & Hle).
  apply find_one_In in Hf. destruct Hf as [Hin _].
  rewrite Forall_forall in Hinv. destruct (Hinv a Hin) as (c & Hc' & Hpos).
  assert (c = cur) by congruence. subst c.
  apply (float_le_lt_trans _ cur); [exact Hpos|].
  apply float_not_le_lt; [|exact Hnan|exact Hle].
  now apply float_le_not_nan in Hpos.
Qed.

Lemma step_amounts_ok (d : DB) (t : thread) :
  amounts_ok d -> thread_ok t ->
  amounts_ok (fst (step d t)) /\ thread_ok (snd (step d t)).
Proof.
  intros [Ha Hb] Ht.
  destruct t as [now aid payload|now aid i payload|now i ins payload|r];
    cbn in *.
  - destruct (check_bid d now aid payload) as [e|i] eqn:Hc; cbn.
    + split; [split; assumption | exact I].
    + split; [split; assumption|].
      now apply (check_bid_positive d now aid payload i).
  - split; [|exact Ht]. split; [exact Ha|].
    apply Forall_app. split; [exact Hb|]. constructor; [exact Ht|constructor].
  - split; [|exact I]. split; [|exact Hb].
    apply Forall_update_one; [|exact Ha].
    intros a _. now apply price_nonneg_set_price.
  - split; [split; assumption | exact I].
Qed.

Lemma set_nth_Forall {A} (P : A -> Prop) (k : nat) (x : A) (l : list A) :
  P x -> Forall P l -> Forall P (set_nth k x l).
Proof.
  intros Hx H. revert k. induction H as [|y l Hy Hl IH]; intros k; cbn.
  - destruct k; constructor.
  - destruct k; constructor; auto.
Qed.

Lemma run_amounts_ok (sched : list nat) :
  forall d ts, amounts_ok d -> Forall thread_ok ts ->
               amounts_ok (fst (run sched d ts)).
Proof.
  induction sched as [|k sched IH]; intros d ts Hd Hts; cbn; [exact Hd|].
  destruct (nth_error ts k) as [t|] eqn:Hk; [|now apply IH].
  assert (Ht : thread_ok t).
  { rewrite Forall_forall in Hts. apply Hts. eapply nth_error_In; eassumption. }
  destruct (step_amounts_ok d t Hd Ht) as [Hd' Ht'].
  destruct (step d t) as [d1 t1]. cbn in *.
  apply IH; [exact Hd' | now apply set_nth_Forall].
Qed.

(** X7: if every stored price reads as a non-negative number and every
    stored bid is positive, this is still so after any interleaving of the
    store operations of any requests whose amounts are numbers: no bid at or
    below zero is ever stored and no price ever becomes negative, although
    [place_bid] never tests the amount against zero. *)
Theorem bids_stay_positive (sched : list nat) (d : DB)
        (reqs : list (datetime * string * PlaceBidRequest)) :
  amounts_ok d ->
  Forall (fun r => is_nan (req_amount (snd r)) = false) reqs ->
  amounts_ok (fst (run sched d (map submit reqs))).
Proof.
  intros Hd Hreqs. apply run_amounts_ok; [exact Hd|].
  apply Forall_map. eapply Forall_impl; [|exact Hreqs].
  intros r Hr. exact Hr.
Qed.

Lemma bids_stay_positive_witness :
  amounts_ok (fst (run race db1
                       (map submit [(1500, id1, mkPlaceBid "A" f150);
                                    (1500, id1, mkPlaceBid "B" f120)]))).
Proof.
  apply (bids_stay_positive race db1).
  - split; [|constructor].
    constructor; [|constructor]. exists f100. split; reflexivity.
  - repeat constructor.
Defined.

(** X8: [create_auction] never touches what is already stored.  A request
    whose start or end time carries no offset fails with [TypeError] when
    the time is compared with the clock, and the store is left as it was.
    Otherwise, for a starting price that is a number: a negative price fails
    with the schema's validation error and the store is left as it was; a
    non-negative price appends one auction after the existing ones, with
    [current_price] equal to the starting price, the status computed from
    the requested window and the window itself cut to the millisecond,
    leaves the bids untouched and keeps every price non-negative. *)
Theorem create_auction_appends (d : DB) (now : datetime)
        (payload : CreateAuctionRequest) :
  is_nan (c_starting_price payload) = false ->
  (((exists t, c_start_time payload = Naive t) \/
    (exists t, c_end_time payload = Naive t)) /\
   create_auction d now payload = (d, inl TypeError)) \/
  (exists s e,
     c_start_time payload = Aware s /\ c_end_time payload = Aware e /\
     float_lt (c_starting_price payload) zero = true /\
     create_auction d now payload = (d, inl ValidationError)) \/
  (exists s e doc,
     c_start_time payload = Aware s /\ c_end_time payload = Aware e /\
     float_le zero (c_starting_price payload) = true /\
     create_auction d now payload =
       (mkDB (auction d ++ [doc]) (bid d) (N.succ (next_oid d)),
        inr (str_oid (next_oid d))) /\
     a_id doc = next_oid d /\
     current_price doc = Some (PyFloat (c_starting_price payload)) /\
     starting_price doc = Some (PyFloat (c_starting_price payload)) /\
     status doc = create_status now s e /\
     start_time doc = to_millis s /\
     end_time doc = to_millis e /\
     (amounts_ok d ->
      amounts_ok (mkDB (auction d ++ [doc]) (bid d) (N.succ (next_oid d))))).
Proof.
  intros Hnan. unfold create_auction. fold zero.
  destruct (c_start_time payload) as [s|s].
  2:{ left. split; [left; now exists s | reflexivity]. }
  destruct (c_end_time payload) as [e|e].
  2:{ left. split; [right; now exists e | reflexivity]. }
  right.
  destruct (float_le zero (c_starting_price payload)) eqn:Hle.
  - right. exists s, e. eexists.
    split; [reflexivity|]. split; [reflexivity|]. split; [reflexivity|].
    split; [reflexivity|]. cbn.
    do 6 (split; [reflexivity|]).
    intros [Ha Hb]. split; [|exact Hb].
    apply Forall_app. split; [exact Ha|].
    constructor; [|constructor]. exists (c_starting_price payload).
    split; [reflexivity | exact Hle].
  - left. exists s, e.
    split; [reflexivity|]. split; [reflexivity|]. split; [|reflexivity].
    apply float_not_le_lt; [exact Hnan | reflexivity | exact Hle].
Qed.

Lemma create_auction_appends_witness :
  exists doc,
    create_auction db0 500 req1 = (mkDB [doc] [] (N.succ oid1), inr id1) /\
    status doc = "scheduled" /\
    current_price doc = Some (PyFloat f100).
Proof.
  destruct (create_auction_appends db0 500 req1)
    as [[_ H]|[(s & e & _ & _ & _ & H)
              |(s & e & doc & Hs & He & _ & H & _ & Hp & _ & Hst & _)]].
  - reflexivity.
  - discriminate H.
  - discriminate H.
  - exists doc. split; [exact H|]. split; [|exact Hp].
    injection Hs as <-. injection He as <-. exact Hst.
Defined.

(** ** Identifiers handed out are identifiers accepted *)

Lemma hex_val_hex_digit (d : N) : (d < 16)%N -> hex_val (hex_digit d) = Some d.
Proof.
  intros H.
  assert (E : (d = 0 \/ d = 1 \/ d = 2 \/ d = 3 \/ d = 4 \/ d = 5 \/ d = 6 \/
               d = 7 \/ d = 8 \/ d = 9 \/ d = 10 \/ d = 11 \/ d = 12 \/
               d = 13 \/ d = 14 \/ d = 15)%N) by lia.
  repeat (destruct E as [->|E]; [reflexivity|]). subst d. reflexivity.
Qed.

Lemma parse_hex_hex_digits (k : nat) :
  forall n acc a,
    parse_hex (hex_digits k n acc) a =
    parse_hex acc (a * 16 ^ N.of_nat k + n mod 16 ^ N.of_nat k)%N.
Proof.
  induction k as [|k IH]; intros n acc a.
  - cbn [hex_digits]. change (16 ^ N.of_nat 0)%N with 1%N.
    now rewrite N.mod_1_r, N.mul_1_r, N.add_0_r.
  - cbn [hex_digits]. rewrite IH. cbn [parse_hex].
    rewrite hex_val_hex_digit by (apply N.mod_lt; discriminate).
    f_equal. rewrite Nat2N.inj_succ, N.pow_succ_r'.
    rewrite (N.Div0.mod_mul_r n 16 (16 ^ N.of_nat k)). lia.
Qed.

Lemma length_hex_digits (k : nat) :
  forall n acc,
    String.length (hex_digits k n acc) = (k + String.length acc)%nat.
Proof.
  induction k as [|k IH]; intros n acc; cbn [hex_digits]; [reflexivity|].
  rewrite IH. cbn. lia.
Qed.

Lemma ObjectId_str_oid (n : oid) :
  (n < 2 ^ 96)%N -> ObjectId (str_oid n) = inr n.
Proof.
  intros H. unfold ObjectId, str_oid.
  rewrite length_hex_digits. cbn [String.length Nat.add Nat.eqb].
  rewrite parse_hex_hex_digits. cbn [parse_hex].
  rewrite N.mul_0_l, N.add_0_l.
  change (16 ^ N.of_nat 24)%N with (2 ^ 96)%N.
  now rewrite N.mod_small.
Qed.

Lemma ObjectId_error (aid : string) (e : error) :
  ObjectId aid = inl e -> e = InvalidId.
Proof.
  unfold ObjectId. destruct (Nat.eqb _ _); [|intros [= <-]; reflexivity].
  destruct (parse_hex aid 0); [discriminate | intros [= <-]; reflexivity].
Qed.

Lemma read_price_error (a : AuctionDoc) (e : error) :
  read_price a = inl e -> e = TypeError.
Proof.
  unfold read_price, py_float. destruct (dict_get _ _); try discriminate.
  intros [= <-]. reflexivity.
Qed.

Lemma find_one_app_last (l : list AuctionDoc) (x : AuctionDoc) (j : oid) :
  find_one (l ++ [x]) j =
  match find_one l j with
  | Some a => Some a
  | None => if N.eqb (a_id x) j then Some x else None
  end.
Proof.
  unfold find_one. induction l as [|a l IH]; cbn; [reflexivity|].
  destruct (N.eqb (a_id a) j); [reflexivity | exact IH].
Qed.

Lemma find_one_fresh (l : list AuctionDoc) (j : oid) :
  Forall (fun a => a_id a <> j) l -> find_one l j = None.
Proof.
  unfold find_one. induction 1 as [|a l Ha _ IH]; cbn; [reflexivity|].
  destruct (N.eqb_spec (a_id a) j); [contradiction | exact IH].
Qed.

Lemma find_one_unique (l : list AuctionDoc) (a : AuctionDoc) :
  NoDup (map a_id l) -> In a l -> find_one l (a_id a) = Some a.
Proof.
  unfold find_one. induction l as [|b l IH]; cbn; [intros _ []|].
  intros Hnd [<-|Hin].
  - now rewrite N.eqb_refl.
  - inversion Hnd as [|x xs Hx Hnd']; subst.
    destruct (N.eqb_spec (a_id b) (a_id a)) as [E|_]; [|now apply IH].
    exfalso. apply Hx. rewrite E. now apply in_map.
Qed.

Lemma list_auctions_In (d : DB) (clock : nat -> datetime)
      (st : option string) (limit : Z) (it : AuctionItem) :
  In it (list_auctions d clock st limit) ->
  In (item_doc it) (auction d) /\
  item_id_str it = str_oid (a_id (item_doc it)).
Proof.
  intros H. apply In_nth_error in H. destruct H as [k H].
  apply list_auctions_nth in H. destruct H as (f & a & Ha & _ & ->).
  apply get_documents_In in Ha. destruct Ha as [Ha _].
  split; [exact Ha | reflexivity].
Qed.

(** X9: when the stored auctions have pairwise distinct identifiers of at
    most 96 bits, every [id] that a listing returns is accepted by the
    detail endpoint and leads back to the very document that was listed;
    and a bid placed under that [id] is never answered with "Auction not
    found" nor with an invalid-id exception. *)
Theorem listed_id_resolves (d : DB) (clock : nat -> datetime)
        (st : option string) (limit : Z) (it : AuctionItem) :
  store_ok d ->
  In it (list_auctions d clock st limit) ->
  (forall scan, exists v,
      get_auction scan d (item_id_str it) = inr v /\
      detail_doc v = item_doc it /\
      detail_id v = item_id_str it) /\
  (forall now payload,
      snd (place_bid d now (item_id_str it) payload) <>
        inl (HTTPException 404 "Auction not found") /\
      snd (place_bid d now (item_id_str it) payload) <> inl InvalidId).
Proof.
  intros [Hnd Hb] Hin.
  destruct (list_auctions_In _ _ _ _ _ Hin) as [Ha Hid].
  assert (Hparse : ObjectId (item_id_str it) = inr (a_id (item_doc it))).
  { rewrite Hid. apply ObjectId_str_oid.
    rewrite Forall_forall in Hb. now apply Hb. }
  pose proof (find_one_unique _ _ Hnd Ha) as Hfind.
  split.
  - intros scan. unfold get_auction. rewrite Hparse, Hfind.
    eexists. split; [reflexivity|]. split; [reflexivity | now rewrite Hid].
  - intros now payload. unfold place_bid, check_bid. rewrite Hparse, Hfind.
    destruct (negb _); [split; discriminate|].
    destruct (read_price _) as [e|cur] eqn:Hr.
    + apply read_price_error in Hr. subst e. split; discriminate.
    + destruct (float_le _ _); split; discriminate.
Qed.

Lemma listed_id_resolves_witness :
  exists v, get_auction (fun l => l) db2 (item_id_str (decorate 2500 auction2)) = inr v /\
            detail_doc v = auction2.
Proof.
  destruct (listed_id_resolves db2 clock2 None 20 (decorate 2500 auction2))
    as [H _].
  - split.
    + cbn. repeat constructor; cbn; intuition discriminate.
    + repeat constructor.
  - right. left. reflexivity.
  - destruct (H (fun l => l)) as (v & Hv & Hd & _).
    exists v. split; [exact Hv | exact Hd].
Defined.

(** ** Creating, then fetching and bidding *)

Lemma create_auction_ok (d : DB) (now : datetime)
      (payload : CreateAuctionRequest) (s e : datetime) :
  c_start_time payload = Aware s ->
  c_end_time payload = Aware e ->
  float_le zero (c_starting_price payload) = true ->
  create_auction d now payload =
    (mkDB (auction d ++
           [mkAuction (next_oid d) None (c_title payload)
                      (c_description payload) (c_image_url payload)
                      (Some (PyFloat (c_starting_price payload)))
                      (Some (PyFloat (c_starting_price payload)))
                      (to_millis s) (to_millis e)
                      (create_status now s e)
                      (c_tags payload) None])
          (bid d) (N.succ (next_oid d)),
     inr (str_oid (next_oid d))).
Proof.
  intros Hs He H. unfold create_auction. fold zero.
  rewrite Hs, He, H. reflexivity.
Qed.

Lemma find_one_created (d : DB) (x : AuctionDoc) :
  fresh d -> a_id x = next_oid d ->
  find_one (auction d ++ [x]) (next_oid d) = Some x.
Proof.
  intros [_ Hf] Hx. rewrite find_one_app_last, (find_one_fresh _ _ Hf).
  now rewrite Hx, N.eqb_refl.
Qed.

(** X10: on a store whose next identifier is unused and fits in 96 bits, an
    auction created with start and end times that carry an offset and a
    non-negative starting price can be fetched at once under the id that
    [create_auction] returned: the detail carries the title, description,
    image and tags of the request, the requested window cut to the
    millisecond, a [current_price] equal to the starting price, and the
    status computed at creation from the requested window. *)
Theorem created_auction_is_fetched (d : DB) (now : datetime)
        (payload : CreateAuctionRequest) (s e : datetime)
        (scan : list BidDoc -> list BidDoc) :
  fresh d ->
  c_start_time payload = Aware s ->
  c_end_time payload = Aware e ->
  float_le zero (c_starting_price payload) = true ->
  exists id v,
    snd (create_auction d now payload) = inr id /\
    get_auction scan (fst (create_auction d now payload)) id = inr v /\
    detail_id v = id /\
    title (detail_doc v) = c_title payload /\
    description (detail_doc v) = c_description payload /\
    image_url (detail_doc v) = c_image_url payload /\
    tags (detail_doc v) = c_tags payload /\
    start_time (detail_doc v) = to_millis s /\
    end_time (detail_doc v) = to_millis e /\
    starting_price (detail_doc v) = Some (PyFloat (c_starting_price payload)) /\
    current_price (detail_doc v) = Some (PyFloat (c_starting_price payload)) /\
    status (detail_doc v) = create_status now s e.
Proof.
  intros Hfresh Hs He Hsp. rewrite (create_auction_ok d now payload s e Hs He Hsp).
  cbn [fst snd]. eexists. eexists. split; [reflexivity|].
  unfold get_auction. rewrite (ObjectId_str_oid _ (proj1 Hfresh)).
  cbn [auction]. rewrite find_one_created by (assumption || reflexivity).
  split; [reflexivity|]. cbn -[to_millis]. repeat split.
Qed.

Lemma created_auction_is_fetched_witness :
  exists v, get_auction (fun l => l) (fst (create_auction db0 500 req1)) id1 = inr v /\
            status (detail_doc v) = "scheduled".
Proof.
  destruct (created_auction_is_fetched db0 500 req1 1000 2000 (fun l => l))
    as (id & v & Hid & Hget & _ & _ & _ & _ & _ & _ & _ & _ & _ & Hst).
  - split; [reflexivity | constructor].
  - reflexivity.
  - reflexivity.
  - reflexivity.
  - exists v. split; [|exact Hst].
    assert (id = id1) by (vm_compute in Hid; injection Hid as <-; reflexivity).
    now subst id.
Defined.

(** X11: on such a store, a bid placed on a freshly created auction under
    the returned id, at a time inside the stored window (the requested one
    cut to the millisecond), is accepted and becomes the current price when
    its amount is strictly above the starting price, and is refused when it
    is at the starting price or below. *)
Theorem created_auction_takes_bids (d : DB) (now now2 : datetime)
        (payload : CreateAuctionRequest) (s e : datetime) (b : PlaceBidRequest) :
  fresh d ->
  c_start_time payload = Aware s ->
  c_end_time payload = Aware e ->
  float_le zero (c_starting_price payload) = true ->
  in_window now2 (to_millis s) (to_millis e) = true ->
  exists id,
    snd (create_auction d now payload) = inr id /\
    (float_lt (c_starting_price payload) (req_amount b) = true ->
     snd (place_bid (fst (create_auction d now payload)) now2 id b) =
       inr (mkBidResponse (str_oid (N.succ (next_oid d))) (req_amount b))) /\
    (float_le (req_amount b) (c_starting_price payload) = true ->
     place_bid (fst (create_auction d now payload)) now2 id b =
       (fst (create_auction d now payload),
        inl (HTTPException 400 "Bid must be higher than current price"))).
Proof.
  intros Hfresh Hs He Hsp Hwin.
  rewrite (create_auction_ok d now payload s e Hs He Hsp).
  cbn [fst snd]. eexists. split; [reflexivity|].
  match goal with |- context [mkDB (auction d ++ [?x]) _ _] => set (doc := x) end.
  set (d' := mkDB _ _ _).
  assert (E : place_bid d' now2 (str_oid (next_oid d)) b =
              if float_le (req_amount b) (c_starting_price payload) then
                (d', inl (HTTPException 400 "Bid must be higher than current price"))
              else
                (accepting d' now2 (str_oid (next_oid d)) (next_oid d) b,
                 inr (mkBidResponse (str_oid (next_oid d')) (req_amount b)))).
  { rewrite (place_bid_found d' now2 _ b (next_oid d) doc
               (c_starting_price payload)).
    - cbn [start_time end_time doc]. now rewrite Hwin.
    - apply ObjectId_str_oid, Hfresh.
    - apply (find_one_created d doc Hfresh eq_refl).
    - reflexivity. }
  rewrite E. split; intros H.
  - now rewrite (float_lt_not_le _ _ H).
  - now rewrite H.
Qed.

Lemma created_auction_takes_bids_witness :
  snd (place_bid (fst (create_auction db0 500 req1)) 1500 id1
                 (mkPlaceBid "A" f150)) =
    inr (mkBidResponse "65a000000000000000000002" f150).
Proof.
  destruct (created_auction_takes_bids db0 500 1500 req1 1000 2000
              (mkPlaceBid "A" f150))
    as (id & Hid & Hacc & _).
  - split; [reflexivity | constructor].
  - reflexivity.
  - reflexivity.
  - reflexivity.
  - reflexivity.
  - assert (id = id1) by (vm_compute in Hid; injection Hid as <-; reflexivity).
    subst id. rewrite Hacc; reflexivity.
Defined.

(** ** Bidding, then fetching *)




Lemma filter_bids_app_other (l : list BidDoc) (b : BidDoc) (aid : string) :
  auction_id b <> aid ->
  filter (fun x => String.eqb (auction_id x) aid) (l ++ [b]) =
  filter (fun x => String.eqb (auction_id x) aid) l.
Proof.
  intros H. rewrite filter_app. cbn.
  destruct (String.eqb_spec (auction_id b) aid); [contradiction|].
  apply app_nil_r.
Qed.



(** X13: bids are filed under the id exactly as the client spelt it, while
    the auction is found by the parsed id.  When a bid is accepted under one
    spelling of an id (upper-case digits, say), the detail fetched under a
    different spelling of the same id shows the new [current_price], but its
    [top_bids] are what they were before the bid. *)
Theorem bid_under_other_spelling_is_not_listed (scan : list BidDoc -> list BidDoc)
        (d d' : DB) (now : datetime) (aid1 aid2 : string) (i : oid)
        (payload : PlaceBidRequest) (r : BidResponse) (v : AuctionDetail) :
  ObjectId aid1 = inr i ->
  ObjectId aid2 = inr i ->
  aid1 <> aid2 ->
  place_bid d now aid1 payload = (d', inr r) ->
  get_auction scan d aid2 = inr v ->
  exists v',
    get_auction scan d' aid2 = inr v' /\
    top_bids v' = top_bids v /\
    current_price (detail_doc v') = Some (PyFloat (req_amount payload)).
Proof.
  intros H1 H2 Hne Hbid Hget.
  apply place_bid_accept_inv in Hbid.
  destruct Hbid as (j & a & cur & Hj & Hfind & _ & _ & _ & -> & _).
  assert (j = i) by congruence. subst j.
  unfold get_auction in *. rewrite H2 in *. rewrite Hfind in Hget.
  unfold accepting. cbn [auction bid].
  rewrite (find_one_update_one _ _ _ a (set_price_id _ _) Hfind).
  rewrite filter_bids_app_other by exact Hne.
  unfold ret in *. eexists. split; [reflexivity|].
  split; [|reflexivity].
  injection Hget as <-. reflexivity.
Qed.

Lemma bid_under_other_spelling_is_not_listed_witness :
  exists v',
    get_auction (fun l => l)
                (fst (place_bid db1 1500 id1_upper (mkPlaceBid "A" f150)))
                id1 = inr v' /\
    top_bids v' = [] /\
    current_price (detail_doc v') = Some (PyFloat f150).
Proof.
  destruct (bid_under_other_spelling_is_not_listed (fun l => l) db1
              (fst (place_bid db1 1500 id1_upper (mkPlaceBid "A" f150)))
              1500 id1_upper id1 oid1 (mkPlaceBid "A" f150)
              (mkBidResponse "65a000000000000000000002" f150)
              (mkDetail auction1 id1 []))
    as (v' & Hget & Htop & Hp).
  - reflexivity.
  - reflexivity.
  - discriminate.
  - vm_compute. reflexivity.
  - reflexivity.
  - exists v'. split; [exact Hget|]. split; [exact Htop | exact Hp].
Defined.

(** ** When fetching fails *)

(** X14: the detail endpoint fails in two ways only, and a bid on the same
    id fails in step with it, leaving the store as it was: when
    [get_auction] answers 400 "Invalid auction id", [place_bid] lets the
    invalid-id exception of the parser through (the client gets 500); when
    [get_auction] answers 404, so does [place_bid], whatever the amount. *)
Theorem get_auction_failure (scan : list BidDoc -> list BidDoc) (d : DB)
        (aid : string) (e : error) (now : datetime) (payload : PlaceBidRequest) :
  get_auction scan d aid = inl e ->
  (e = HTTPException 400 "Invalid auction id" /\
   place_bid d now aid payload = (d, inl InvalidId) /\
   http_status InvalidId = 500) \/
  (e = HTTPException 404 "Auction not found" /\
   place_bid d now aid payload =
     (d, inl (HTTPException 404 "Auction not found"))).
Proof.
  unfold get_auction, place_bid, check_bid.
  destruct (ObjectId aid) as [e0|i] eqn:Hid.
  - intros [= <-]. left. apply ObjectId_error in Hid. subst e0.
    repeat split.
  - destruct (find_one (auction d) i) as [a|]; [discriminate|].
    intros [= <-]. right. split; reflexivity.
Qed.

Lemma get_auction_failure_witness :
  place_bid db1 1500 "65a00000000000000000000g" (mkPlaceBid "A" f150) =
    (db1, inl InvalidId).
Proof.
  destruct (get_auction_failure (fun l => l) db1 "65a00000000000000000000g"
              (HTTPException 400 "Invalid auction id") 1500 (mkPlaceBid "A" f150))
    as [(_ & H & _)|(H & _)].
  - reflexivity.
  - exact H.
  - discriminate H.
Defined.

(** ** The diagnostic report *)

(** X15: in the report of [test_database], [database_url] and
    [database_name] say only whether the environment variables are set to a
    non-empty value, whatever the database handle is: what the function
    first stores there from the handle is overwritten before it returns.
    The connection status is "Connected" exactly when there is a handle; at
    most 10 collection names are reported, the first ones; and the
    [database] message is at most 75 characters long, the text of an error
    being cut at 50. *)
Theorem test_database_report (db : option Database)
        (env : string -> option pystr) :
  let r := test_database db env in
  database_url r =
    Some (if getenv_truthy env "DATABASE_URL"
          then check_mark ++ lit " Set" else cross_mark ++ lit " Not Set")%list /\
  database_name r =
    Some (if getenv_truthy env "DATABASE_NAME"
          then check_mark ++ lit " Set" else cross_mark ++ lit " Not Set")%list /\
  (connection_status r = lit "Connected" <-> db <> None) /\
  (forall h names, db = Some h -> list_collection_names h = inr names ->
                   collections r = firstn 10 names) /\
  (List.length (collections r) <= 10)%nat /\
  (List.length (database r) <= 75)%nat.
Proof.
  unfold test_database.
  destruct db as [[n [e|names]]|]; cbn -[firstn lit getenv_truthy app].
  all: split; [reflexivity|]; split; [reflexivity|].
  all: split;
    [split; [try congruence; intros H; exfalso; revert H; vm_compute; discriminate
            | intros H; try reflexivity; try congruence]|].
  - split; [intros h names [= <-]; discriminate|]. split; [lia|].
    rewrite !length_app. pose proof (firstn_le_length 50 e).
    change (List.length warning_sign) with 2%nat.
    change (List.length (lit "  Connected but Error: ")) with 23%nat. lia.
  - split; [intros h names0 [= <-]; cbn [list_collection_names];
            intros [= <-]; reflexivity|].
    split; [apply firstn_le_length | vm_compute; lia].
  - split; [intros h names; discriminate|]. split; [lia | vm_compute; lia].
Qed.

(** ** An acknowledged bid is a stored bid *)

Lemma recorded_extends (d d' : DB) (t : thread) :
  extends d d' -> recorded d t -> recorded d' t.
Proof.
  intros (_ & (new & Hb) & _).
  destruct t as [now aid payload|now aid i payload|now i ins payload|[e|r]];
    cbn; auto.
  - intros (b & Hin & H). exists b. split; [|exact H].
    rewrite Hb. apply in_or_app. now left.
  - intros (b & Hin & H). exists b. split; [|exact H].
    rewrite Hb. apply in_or_app. now left.
Qed.

Lemma step_recorded (d : DB) (t : thread) :
  recorded d t -> recorded (fst (step d t)) (snd (step d t)).
Proof.
  destruct t as [now aid payload|now aid i payload|now i ins payload|r];
    cbn.
  - intros _. destruct (check_bid d now aid payload); exact I.
  - intros _. eexists. split; [apply in_or_app; right; left; reflexivity|].
    repeat split.
  - intros (b & Hin & Hid & Ham & _). exists b.
    split; [exact Hin|]. split; [now rewrite Hid | exact Ham].
  - auto.
Qed.

Lemma run_recorded (sched : list nat) :
  forall d ts, Forall (recorded d) ts ->
               Forall (recorded (fst (run sched d ts))) (snd (run sched d ts)).
Proof.
  induction sched as [|k sched IH]; intros d ts Hts; cbn; [exact Hts|].
  destruct (nth_error ts k) as [t|] eqn:Hk; [|now apply IH].
  assert (Ht : recorded d t).
  { rewrite Forall_forall in Hts. apply Hts. eapply nth_error_In; eassumption. }
  pose proof (step_recorded d t Ht) as Hs.
  pose proof (step_extends d t) as He.
  destruct (step d t) as [d1 t1]. cbn in *.
  apply IH. apply set_nth_Forall; [exact Hs|].
  eapply Forall_impl; [|exact Hts].
  intros t0. now apply recorded_extends.
Qed.

(** X16: whatever the interleaving of the store operations of any
    requests, every request that has answered with success has its bid in
    the store: a bid document whose identifier is the [id] of the answer and
    whose amount is the [current_price] of the answer (even when, after a
    race, the auction's price is another request's amount). *)
Theorem acknowledged_bid_is_stored (sched : list nat) (d : DB)
        (reqs : list (datetime * string * PlaceBidRequest)) (r : BidResponse) :
  In (Done (inr r)) (snd (run sched d (map submit reqs))) ->
  exists b,
    In b (bid (fst (run sched d (map submit reqs)))) /\
    str_oid (b_id b) = resp_id r /\
    amount b = resp_current_price r.
Proof.
  intros Hin.
  assert (H0 : Forall (recorded d) (map submit reqs)).
  { apply Forall_map. apply Forall_forall. intros x _. exact I. }
  pose proof (run_recorded sched d _ H0) as H.
  rewrite Forall_forall in H. exact (H _ Hin).
Qed.

Lemma acknowledged_bid_is_stored_witness :
  exists b,
    In b (bid (fst (run race db1
                        (map submit [(1500, id1, mkPlaceBid "A" f150);
                                     (1500, id1, mkPlaceBid "B" f120)])))) /\
    str_oid (b_id b) = "65a000000000000000000002" /\
    amount b = f150.
Proof.
  apply (acknowledged_bid_is_stored race db1
           [(1500, id1, mkPlaceBid "A" f150); (1500, id1, mkPlaceBid "B" f120)]
           (mkBidResponse "65a000000000000000000002" f150)).
  vm_compute. left. reflexivity.
Defined.
